(** * The XC120 bridge command channel

    A shallow embedding of
    [src/acconeer/exptool/flash/_xc120/_xcbridge_comm.py]: the request and
    response packet classes, the table of response decoders, and the
    [XCCommunication] session with its blocking command methods.

    Python values are rendered as follows.
    - [bytes] / [bytearray] : [list byte]; slicing is [take] / [drop],
      indexing is the list lookup [!!] with [IndexError] out of range.
    - [int] : [Z]; [int.from_bytes] and [int.to_bytes] are written out.
    - [str] : [string].
    - exceptions : the type [exn]; a computation that may raise returns a
      [result].
    - the module-level dict [_command_packets] : a [gmap].
    - methods of [XCCommunication] : computations in the monad [M], which
      threads the object's fields together with the environment (serial port,
      reader queue, log). *)

From Stdlib Require Import ZArith NArith Lia.
From Stdlib Require Import Strings.String Strings.Ascii Strings.Byte.
From stdpp Require Import base option list gmap strings pretty.

Open Scope string_scope.
Open Scope list_scope.
Open Scope Z_scope.

(** ** Python builtins used by the module *)

Inductive exn : Type :=
| OSError (msg : string)
| TimeoutError (msg : string)
| CommandFailed (msg : string)
| QueueEmpty                 (* queue.Empty *)
| SerialException            (* serial.Serial could not open the port *)
| AttributeError
| TypeError
| IndexError
| UnicodeDecodeError
| OverflowError
| RecursionError.

(** The class name of an exception, as [type(e).__name__] gives it. *)
Definition exn_name (e : exn) : string :=
  match e with
  | OSError _ => "OSError"
  | TimeoutError _ => "TimeoutError"
  | CommandFailed _ => "CommandFailed"
  | QueueEmpty => "Empty"
  | SerialException => "SerialException"
  | AttributeError => "AttributeError"
  | TypeError => "TypeError"
  | IndexError => "IndexError"
  | UnicodeDecodeError => "UnicodeDecodeError"
  | OverflowError => "OverflowError"
  | RecursionError => "RecursionError"
  end.

Inductive result (A : Type) : Type :=
| Ok (a : A)
| Raise (e : exn).
Arguments Ok {A} a.
Arguments Raise {A} e.

Definition result_bind {A B : Type} (r : result A) (k : A -> result B) : result B :=
  match r with
  | Ok a => k a
  | Raise e => Raise e
  end.

Abbreviation bytes := (list byte).

Definition byte_to_int (b : byte) : Z := Z.of_N (Byte.to_N b).

(** The byte with value [z mod 256]. *)
Definition int_to_byte (z : Z) : byte :=
  default x00 (Byte.of_N (Z.to_N (z mod 256))).

(** [int.from_bytes(bs, byteorder="little")]; the empty string gives 0. *)
Fixpoint int_from_bytes_little (bs : bytes) : Z :=
  match bs with
  | [] => 0
  | b :: rest => byte_to_int b + 256 * int_from_bytes_little rest
  end.

Fixpoint little_digits (len : nat) (n : Z) : bytes :=
  match len with
  | O => []
  | S len' => int_to_byte n :: little_digits len' (n / 256)
  end.

(** [n.to_bytes(len, byteorder="little")]: [OverflowError] for a negative
    [n] and for one that does not fit in [len] bytes. *)
Definition int_to_bytes_little (len : nat) (n : Z) : result bytes :=
  if (0 <=? n) && (n <? 256 ^ Z.of_nat len)
  then Ok (little_digits len n)
  else Raise OverflowError.

(** [bs.decode("ascii")]: every byte must be below 0x80. *)
Definition is_ascii (b : byte) : bool := byte_to_int b <? 128.

Definition decode_ascii (bs : bytes) : result string :=
  if forallb is_ascii bs
  then Ok (string_of_list_byte bs)
  else Raise UnicodeDecodeError.

(** [bs[0]] *)
Definition getitem0 (bs : bytes) : result Z :=
  match bs !! 0%nat with
  | Some b => Ok (byte_to_int b)
  | None => Raise IndexError
  end.

(** ** Packets *)

(** Modelled from the spec: the base class [Packet] of [_uart_protocol] is
    not among the sources.  The spec's [Frame] is a type identifier with a
    payload; [Packet.__init__] stores the payload, and framing is
    [get_byte_array] below. *)
Record Packet : Type := mkPacket {
  packet_type : Z;
  payload : bytes
}.

(** Modelled from the spec: [Packet.get_byte_array] of [_uart_protocol]
    frames the packet for the wire.  The spec bounds the payload length of a
    frame by a maximum of the transport: the frame carries the length in a
    two-byte field, so a payload of 65536 bytes or more makes
    [get_byte_array] raise [OverflowError].  The bytes around the payload
    are the transport's; the result stands for the framed packet. *)
Definition get_byte_array (p : Packet) : result Packet :=
  result_bind (int_to_bytes_little 2 (Z.of_nat (length (payload p))))
              (fun _ => Ok p).

(** [XcCommandResponsePacket]: the header fields read off the frame payload
    by [__init__], and the payload itself kept by the base class. *)
Record XcCommandResponse : Type := mkXcCommandResponse {
  command_id : Z;
  command_payload : bytes;
  response_packet : Packet
}.

Definition XcCommandResponsePacket (payload : bytes) : XcCommandResponse :=
  {| command_id := int_from_bytes_little (take 2 payload);
     command_payload := drop 2 payload;
     response_packet := mkPacket 0xF2 payload |}.

(** [XcCommandRequestPacket.__init__] of a subclass whose class attribute
    [command_id] is [cid], on the [bytearray] that the subclasses hand it:
    [command_payload] is the content of that bytearray. *)
Definition XcCommandRequestPacket (cid : Z) (command_payload : bytes) : result Packet :=
  result_bind (int_to_bytes_little 2 cid) (fun header =>
  Ok (mkPacket 0xF2 (header ++ command_payload))).

(** The two kinds of Python byte string: immutable [bytes] and mutable
    [bytearray]. *)
Inductive buffer : Type :=
| Bytes (content : bytes)
| Bytearray (content : bytes).

(** [XcCommandRequestPacket.__init__] on an argument of either kind.  The
    right-hand side [self.command_id.to_bytes(2, ...)] is evaluated first;
    the slice assignment [command_payload[0:0] = ...] then needs a mutable
    sequence, and on [bytes] it raises [TypeError]. *)
Definition XcCommandRequestPacket_init (cid : Z) (command_payload : buffer) : result Packet :=
  match command_payload with
  | Bytearray content => XcCommandRequestPacket cid content
  | Bytes _ => result_bind (int_to_bytes_little 2 cid) (fun _ => Raise TypeError)
  end.

Definition GetLastErrorRequestPacket : result Packet :=
  XcCommandRequestPacket 0x0002 [].

Definition GetAppSwVersionRequestPacket : result Packet :=
  XcCommandRequestPacket 0x010A [].

Definition GetAppSwNameRequestPacket : result Packet :=
  XcCommandRequestPacket 0x010B [].

Definition DfuRebootRequestPacket : result Packet :=
  XcCommandRequestPacket 0xFFFF [].

(** The three response classes.  They share [__init__] and [get_status] and
    differ in their [command_id] and in the name of the text accessor. *)
Inductive response_class : Type :=
| GetLastErrorResponsePacket
| GetAppSwVersionResponsePacket
| GetAppSwNameResponsePacket.

Definition class_command_id (c : response_class) : Z :=
  match c with
  | GetLastErrorResponsePacket => 0x0002
  | GetAppSwVersionResponsePacket => 0x010A
  | GetAppSwNameResponsePacket => 0x010B
  end.

Record response : Type := mkResponse {
  response_cls : response_class;
  response_payload : bytes
}.

Definition get_status (r : response) : result Z :=
  getitem0 (response_payload r).

(** The text accessors.  Asking an object for a method its class does not
    define raises [AttributeError]. *)
Definition get_response_data (r : response) : result string :=
  match response_cls r with
  | GetLastErrorResponsePacket => decode_ascii (drop 1 (response_payload r))
  | _ => Raise AttributeError
  end.

Definition get_version (r : response) : result string :=
  match response_cls r with
  | GetAppSwVersionResponsePacket => decode_ascii (drop 1 (response_payload r))
  | _ => Raise AttributeError
  end.

Definition get_name (r : response) : result string :=
  match response_cls r with
  | GetAppSwNameResponsePacket => decode_ascii (drop 1 (response_payload r))
  | _ => Raise AttributeError
  end.

Definition _command_packets : gmap Z response_class :=
  {[ 0x0002 := GetLastErrorResponsePacket;
     0x010A := GetAppSwVersionResponsePacket;
     0x010B := GetAppSwNameResponsePacket ]}.

(** [_command_packets.get(self.command_id)(self.command_payload)]: for an
    absent key [dict.get] returns [None], and calling [None] raises
    [TypeError]. *)
Definition get_command_packet (p : XcCommandResponse) : result response :=
  match _command_packets !! command_id p with
  | Some cls => Ok (mkResponse cls (command_payload p))
  | None => Raise TypeError
  end.

(** ** The environment and the monad of the session's methods *)

(** What the session does to the outside, newest event first. *)
Inductive event : Type :=
| LogError (msg : string)          (* _LOG.error *)
| LogDebugSending (p : Packet)     (* _LOG.debug("Sending packet %s", data) *)
| SerialOpen (port : string)       (* serial.Serial(port, exclusive=True) *)
| SerialWrite (p : Packet)         (* self._ser.write(packet.get_byte_array()) *)
| SerialClose                      (* self._ser.close() *)
| ReaderStart                      (* self._reader.start() *)
| ReaderStop                       (* self._reader.stop() *)
| WaitPacket (ptype timeout : Z).  (* self._reader.wait_packet(ptype, timeout) *)

(** Modelled from the spec: [UartReader] of [_uart_protocol] and the serial
    port are the spec's external [FrameTransport].  [incoming k] is what the
    [k]-th wait on the command channel delivers: the payload of a frame, or
    nothing before the deadline ([queue.Empty]).  [port_free] tells whether
    [serial.Serial] can take the port exclusively, [platform_system] is the
    value of [platform.system()], and [DEFAULT_READ_TIMEOUT] is the class
    constant of [UartReader]. *)
Record world : Type := mkWorld {
  platform_system : string;
  port_free : string -> bool;
  DEFAULT_READ_TIMEOUT : Z;
  incoming : nat -> option bytes;
  waits : nat;
  trace : list event
}.

(** The fields of an [XCCommunication] object.  [_ser] is the serial handle
    (named by its port) or [None]; the [_reader] field is never reassigned
    and is part of the environment. *)
Record XCCommunication : Type := mkXCCommunication {
  _ser : option string;
  _timeout : Z;
  _reader_started : bool
}.

Record state : Type := mkState {
  self : XCCommunication;
  env : world
}.

Definition ST (S A : Type) : Type := S -> result A * S.

Definition ret {S A : Type} (a : A) : ST S A := fun s => (Ok a, s).

Definition raise {S A : Type} (e : exn) : ST S A := fun s => (Raise e, s).

Definition bind {S A B : Type} (m : ST S A) (k : A -> ST S B) : ST S B :=
  fun s =>
    match m s with
    | (Ok a, s') => k a s'
    | (Raise e, s') => (Raise e, s')
    end.

(** [try: m  except ...: h] *)
Definition try_except {S A : Type} (m : ST S A) (h : exn -> ST S A) : ST S A :=
  fun s =>
    match m s with
    | (Ok a, s') => (Ok a, s')
    | (Raise e, s') => h e s'
    end.

Definition lift_result {S A : Type} (r : result A) : ST S A := fun s => (r, s).

Declare Scope py_scope.
Delimit Scope py_scope with py.
Notation "x <- m ;; k" := (bind m (fun x => k))
  (at level 100, m at next level, right associativity) : py_scope.
Notation "m ;; k" := (bind m (fun _ => k))
  (at level 100, right associativity) : py_scope.
Open Scope py_scope.

Abbreviation W := (ST world).
Abbreviation M := (ST state).

Definition emit_w (ev : event) : W unit :=
  fun w => (Ok tt, mkWorld (platform_system w) (port_free w) (DEFAULT_READ_TIMEOUT w)
                           (incoming w) (waits w) (ev :: trace w)).

Definition in_env {A : Type} (m : W A) : M A :=
  fun s => let (r, w') := m (env s) in (r, mkState (self s) w').

Definition emit (ev : event) : M unit := in_env (emit_w ev).

Definition get_self : M XCCommunication := fun s => (Ok (self s), s).

Definition set__ser (v : option string) : M unit :=
  fun s => (Ok tt, mkState (mkXCCommunication v (_timeout (self s)) (_reader_started (self s))) (env s)).

Definition set__reader_started (v : bool) : M unit :=
  fun s => (Ok tt, mkState (mkXCCommunication (_ser (self s)) (_timeout (self s)) v) (env s)).

(** [self._reader.wait_packet(ptype, timeout)]: the reader was built with
    the packet class [XcCommandResponsePacket], so a delivered frame comes
    back as an object of that class. *)
Definition wait_packet (ptype timeout : Z) : W XcCommandResponse :=
  fun w =>
    let w' := mkWorld (platform_system w) (port_free w) (DEFAULT_READ_TIMEOUT w)
                      (incoming w) (S (waits w)) (WaitPacket ptype timeout :: trace w) in
    match incoming w (waits w) with
    | Some payload => (Ok (XcCommandResponsePacket payload), w')
    | None => (Raise QueueEmpty, w')
    end.

(** [serial.Serial(port, exclusive=True)] *)
Definition serial_Serial (port : string) : W string :=
  fun w =>
    if port_free w port
    then bind (emit_w (SerialOpen port)) (fun _ => ret port) w
    else (Raise SerialException, w).

(** ** XCCommunication *)

Definition __init__ (port : string) : W XCCommunication :=
  fun w =>
    (if negb (String.eqb (platform_system w) "Linux") then
       emit_w (LogError ("Unsupported OS: " +:+ platform_system w));;
       raise (OSError "Module only supports Linux.")
     else
       ser <- serial_Serial port;;
       emit_w ReaderStart;;
       ret (mkXCCommunication (Some ser) (DEFAULT_READ_TIMEOUT w) true)) w.

Definition stop : M unit :=
  this <- get_self;;
  if _reader_started this then
    emit ReaderStop;;
    set__reader_started false
  else ret tt.

Definition close : M unit :=
  stop;;
  this <- get_self;;
  match _ser this with
  | Some _ => emit SerialClose;; set__ser None
  | None => raise AttributeError
  end.

Definition __exit__ : M unit := close.

Definition _send_packet (packet : Packet) : M unit :=
  data <- lift_result (get_byte_array packet);;
  emit (LogDebugSending data);;
  this <- get_self;;
  match _ser this with
  | Some _ => emit (SerialWrite data)
  | None => raise AttributeError
  end.

Definition _execute_request (packet : Packet) : M response :=
  try_except
    (_send_packet packet;;
     this <- get_self;;
     response <- in_env (wait_packet 0xF2 (_timeout this));;
     lift_result (get_command_packet response))
    (fun e =>
       match e with
       | QueueEmpty =>
           emit (LogError "read timeout");;
           raise (TimeoutError "_execute_request timeout")
       | _ => raise e
       end).

(** f"Command failed with code {status} [{error_msg}]" *)
Definition command_failed_message (status : Z) (error_msg : string) : string :=
  "Command failed with code " +:+ pretty status +:+ " [" +:+ error_msg +:+ "]".

(** [limit] is the number of nested activations of [get_last_error] the
    interpreter still allows; Python raises [RecursionError] beyond it. *)
Fixpoint get_last_error (limit : nat) : M string :=
  match limit with
  | O => raise RecursionError
  | S limit' =>
      packet <- lift_result GetLastErrorRequestPacket;;
      response <- _execute_request packet;;
      status <- lift_result (get_status response);;
      response_data <- lift_result (get_response_data response);;
      if negb (status =? 0) then
        error_msg <- get_last_error limit';;
        raise (CommandFailed (command_failed_message status error_msg))
      else ret response_data
  end.

Definition get_app_sw_version (limit : nat) : M string :=
  packet <- lift_result GetAppSwVersionRequestPacket;;
  response <- _execute_request packet;;
  status <- lift_result (get_status response);;
  version <- lift_result (get_version response);;
  if negb (status =? 0) then
    error_msg <- get_last_error limit;;
    raise (CommandFailed (command_failed_message status error_msg))
  else ret version.

Definition get_app_sw_name (limit : nat) : M string :=
  packet <- lift_result GetAppSwNameRequestPacket;;
  response <- _execute_request packet;;
  status <- lift_result (get_status response);;
  name <- lift_result (get_name response);;
  if negb (status =? 0) then
    error_msg <- get_last_error limit;;
    raise (CommandFailed (command_failed_message status error_msg))
  else ret name.

Definition dfu_reboot : M unit :=
  packet <- lift_result DfuRebootRequestPacket;;
  _send_packet packet.

(** ** Running examples *)

Definition bytes_of (s : string) : bytes := list_byte_of_string s.

Definition queue_of (frames : list bytes) : nat -> option bytes :=
  fun k => frames !! k.

Definition linux (frames : nat -> option bytes) : world :=
  mkWorld "Linux" (fun _ => true) 2 frames 0 [].

(** The session that [XCCommunication("/dev/ttyACM0")] gives on [linux frames]. *)
Definition session_on (frames : nat -> option bytes) : state :=
  mkState (mkXCCommunication (Some "/dev/ttyACM0") 2 true)
          (mkWorld "Linux" (fun _ => true) 2 frames 0
                   [ReaderStart; SerialOpen "/dev/ttyACM0"]).

Definition writes (w : world) : list Packet :=
  omap (fun ev => match ev with SerialWrite p => Some p | _ => None end) (trace w).

(** ** The three commands that wait for a reply *)

Inductive command : Type := GetLastError | GetAppSwVersion | GetAppSwName.

Definition command_class (c : command) : response_class :=
  match c with
  | GetLastError => GetLastErrorResponsePacket
  | GetAppSwVersion => GetAppSwVersionResponsePacket
  | GetAppSwName => GetAppSwNameResponsePacket
  end.

(** The request a command method builds, its text accessor, and the method. *)
Definition request_of (c : command) : result Packet :=
  match c with
  | GetLastError => GetLastErrorRequestPacket
  | GetAppSwVersion => GetAppSwVersionRequestPacket
  | GetAppSwName => GetAppSwNameRequestPacket
  end.

Definition accessor (c : command) : response -> result string :=
  match c with
  | GetLastError => get_response_data
  | GetAppSwVersion => get_version
  | GetAppSwName => get_name
  end.

Definition call (c : command) (limit : nat) : M string :=
  match c with
  | GetLastError => get_last_error limit
  | GetAppSwVersion => get_app_sw_version limit
  | GetAppSwName => get_app_sw_name limit
  end.

(** The recursion budget left for the error fetch inside [call c (S limit)]. *)
Definition nested_limit (c : command) (limit : nat) : nat :=
  match c with
  | GetLastError => limit
  | _ => S limit
  end.

(** The state after some more events. *)
Definition logged (evs : list event) (s : state) : state :=
  mkState (self s)
          (mkWorld (platform_system (env s)) (port_free (env s))
                   (DEFAULT_READ_TIMEOUT (env s)) (incoming (env s))
                   (waits (env s)) (evs ++ trace (env s))).

(** The state after [packet] was written and one wait was made. *)
Definition exchanged (packet : Packet) (s : state) : state :=
  mkState (self s)
          (mkWorld (platform_system (env s)) (port_free (env s))
                   (DEFAULT_READ_TIMEOUT (env s)) (incoming (env s))
                   (S (waits (env s)))
                   (WaitPacket 0xF2 (_timeout (self s))
                      :: SerialWrite packet :: LogDebugSending packet
                      :: trace (env s))).

Definition request_packet (c : command) : Packet :=
  mkPacket 0xF2 (little_digits 2 (class_command_id (command_class c))).

(** A response frame for command [c]: identifier, status byte, text. *)
Definition reply_frame (c : command) (st : byte) (text : bytes) : bytes :=
  payload (request_packet c) ++ st :: text.

(** The first wait times out and the reply to the second call arrives. *)
Definition late_device : nat -> option bytes :=
  fun k => if Nat.eqb k 1
           then Some (reply_frame GetAppSwName x00 (bytes_of "xc120"))
           else None.

(** The session of an idle device, after [close]. *)
Definition closed_session : state := snd (close (session_on (fun _ => None))).

(** A device that answers every request with get-last-error, status 1. *)
Definition always_failing : nat -> option bytes :=
  fun _ => Some (reply_frame GetLastError x01 (bytes_of "E")).

(** ** The rest of the session's interface *)

(** [__enter__] returns the object itself. *)
Definition __enter__ : M XCCommunication := get_self.

(** The body that [get_last_error], [get_app_sw_version] and
    [get_app_sw_name] share, with [n] the recursion budget of the error
    fetch. *)
Definition command_body (c : command) (n : nat) : M string :=
  packet <- lift_result (request_of c);;
  response <- _execute_request packet;;
  status <- lift_result (get_status response);;
  text <- lift_result (accessor c response);;
  if negb (status =? 0) then
    error_msg <- get_last_error n;;
    raise (CommandFailed (command_failed_message status error_msg))
  else ret text.

(** Reading a trace: the packets written, and how many events of a kind. *)
Definition written (tr : list event) : list Packet :=
  omap (fun ev => match ev with SerialWrite p => Some p | _ => None end) tr.

Fixpoint count_events (f : event -> bool) (tr : list event) : nat :=
  match tr with
  | [] => 0
  | ev :: rest => (if f ev then 1 else 0) + count_events f rest
  end.

Definition is_wait (ev : event) : bool :=
  match ev with WaitPacket _ _ => true | _ => false end.

Definition is_reader_stop (ev : event) : bool :=
  match ev with ReaderStop => true | _ => false end.

Definition is_serial_close (ev : event) : bool :=
  match ev with SerialClose => true | _ => false end.

(** The events a command method for [c] may leave on a session whose
    timeout is [tmo]. *)
Definition command_event (c : command) (tmo : Z) (ev : event) : Prop :=
  match ev with
  | LogDebugSending p | SerialWrite p =>
      p = request_packet c \/ p = request_packet GetLastError
  | WaitPacket ptype timeout => ptype = 0xF2 /\ timeout = tmo
  | LogError msg => msg = "read timeout"
  | SerialOpen _ | SerialClose | ReaderStart | ReaderStop => False
  end.

(** A caller that uses the lifecycle methods in some order and goes on
    after an exception. *)
Inductive lifecycle : Type := CallStop | CallClose | CallExit.

Definition lifecycle_method (op : lifecycle) : M unit :=
  match op with
  | CallStop => stop
  | CallClose => close
  | CallExit => __exit__
  end.

Fixpoint run_lifecycle (ops : list lifecycle) (s : state) : state :=
  match ops with
  | [] => s
  | op :: rest => run_lifecycle rest (snd (lifecycle_method op s))
  end.

(** What is left to stop and to close on a session. *)
Definition reader_to_stop (s : state) : nat :=
  if _reader_started (self s) then 1 else 0.

Definition port_to_close (s : state) : nat :=
  match _ser (self s) with Some _ => 1 | None => 0 end.

(** What a command method for [c] may have done between [s] and [s']: the
    object and the device are as before, and the trace has grown by events
    of the method, one wait for each write. *)
Definition footprint (c : command) (s s' : state) : Prop :=
  self s' = self s /\
  platform_system (env s') = platform_system (env s) /\
  port_free (env s') = port_free (env s) /\
  DEFAULT_READ_TIMEOUT (env s') = DEFAULT_READ_TIMEOUT (env s) /\
  incoming (env s') = incoming (env s) /\
  exists more,
    trace (env s') = more ++ trace (env s) /\
    Forall (command_event c (_timeout (self s))) more /\
    count_events is_wait more = length (written more) /\
    waits (env s') = (waits (env s) + count_events is_wait more)%nat.

(** ** Bytes and little-endian integers *)

Section Bytes.

Lemma byte_to_int_range (b : byte) : 0 <= byte_to_int b < 256.
Proof.
  unfold byte_to_int. pose proof (Byte.to_N_bounded b). lia.
Qed.

Lemma int_to_byte_to_int (b : byte) : int_to_byte (byte_to_int b) = b.
Proof.
  pose proof (byte_to_int_range b) as Hr.
  unfold int_to_byte. rewrite Z.mod_small by exact Hr.
  unfold byte_to_int. rewrite N2Z.id, Byte.of_to_N. reflexivity.
Qed.

Lemma byte_to_int_to_byte (z : Z) : byte_to_int (int_to_byte z) = z mod 256.
Proof.
  pose proof (Z.mod_pos_bound z 256 ltac:(lia)) as Hr.
  unfold int_to_byte, byte_to_int.
  destruct (Byte.of_N (Z.to_N (z mod 256))) as [b|] eqn:Hb; simpl.
  - apply Byte.to_of_N in Hb. rewrite Hb. lia.
  - apply Byte.of_N_None_iff in Hb. lia.
Qed.

Lemma int_from_bytes_little_range (bs : bytes) :
  0 <= int_from_bytes_little bs < 256 ^ Z.of_nat (length bs).
Proof.
  induction bs as [|b bs IH].
  - simpl. lia.
  - change (length (b :: bs)) with (S (length bs)).
    rewrite Nat2Z.inj_succ, Z.pow_succ_r by lia.
    pose proof (byte_to_int_range b). simpl. lia.
Qed.

Lemma little_digits_from_bytes (bs : bytes) :
  little_digits (length bs) (int_from_bytes_little bs) = bs.
Proof.
  induction bs as [|b bs IH]; [reflexivity|].
  pose proof (byte_to_int_range b) as Hb.
  simpl. f_equal.
  - rewrite <- (int_to_byte_to_int b) at 2. unfold int_to_byte.
    do 3 f_equal.
    rewrite (Z.mul_comm 256), Z.mod_add by lia. reflexivity.
  - rewrite (Z.mul_comm 256), Z.div_add by lia.
    rewrite Z.div_small by lia. exact IH.
Qed.

Lemma int_from_little_digits (len : nat) (n : Z) :
  int_from_bytes_little (little_digits len n) = n mod 256 ^ Z.of_nat len.
Proof.
  revert n. induction len as [|len IH]; intros n.
  - simpl. rewrite Z.mod_1_r. reflexivity.
  - rewrite Nat2Z.inj_succ, Z.pow_succ_r by lia.
    simpl. rewrite IH, byte_to_int_to_byte.
    rewrite Z.rem_mul_r by lia. reflexivity.
Qed.

(** [int.from_bytes(n.to_bytes(len, "little"), "little") == n] *)
Lemma int_from_to_bytes (len : nat) (n : Z) (bs : bytes) :
  int_to_bytes_little len n = Ok bs ->
  int_from_bytes_little bs = n /\ length bs = len.
Proof.
  unfold int_to_bytes_little.
  destruct ((0 <=? n) && (n <? 256 ^ Z.of_nat len)) eqn:Hr; [|discriminate].
  intros [= <-]. apply andb_prop in Hr as [H0 H1].
  split.
  - rewrite int_from_little_digits. apply Z.mod_small. lia.
  - clear. revert n. induction len; intros; simpl; auto.
Qed.

(** [int.from_bytes(bs, "little").to_bytes(len(bs), "little") == bs] *)
Lemma int_to_from_bytes (bs : bytes) :
  int_to_bytes_little (length bs) (int_from_bytes_little bs) = Ok bs.
Proof.
  pose proof (int_from_bytes_little_range bs) as Hr.
  unfold int_to_bytes_little.
  replace ((0 <=? int_from_bytes_little bs)
           && (int_from_bytes_little bs <? 256 ^ Z.of_nat (length bs)))
    with true by (symmetry; apply andb_true_intro; split; lia).
  rewrite little_digits_from_bytes. reflexivity.
Qed.

Lemma int_to_bytes_u16 (n : Z) :
  0 <= n < 65536 ->
  int_to_bytes_little 2 n = Ok [int_to_byte n; int_to_byte (n / 256)].
Proof.
  intros Hn. unfold int_to_bytes_little.
  change (256 ^ Z.of_nat 2) with 65536.
  replace ((0 <=? n) && (n <? 65536))
    with true by (symmetry; apply andb_true_intro; split; lia).
  reflexivity.
Qed.

End Bytes.

(** ** The codec: request encoding, response decoding, the decoder table *)

Section Codec.

Lemma _command_packets_registered (cid : Z) (cls : response_class) :
  _command_packets !! cid = Some cls <-> cid = class_command_id cls.
Proof.
  unfold _command_packets. split.
  - intros H.
    destruct (decide (cid = 0x0002)) as [->|N1]; [by simplify_map_eq|].
    destruct (decide (cid = 0x010A)) as [->|N2]; [by simplify_map_eq|].
    destruct (decide (cid = 0x010B)) as [->|N3]; [by simplify_map_eq|].
    by simplify_map_eq.
  - intros ->. by destruct cls.
Qed.

Lemma _command_packets_unregistered (cid : Z) :
  _command_packets !! cid = None <->
  cid <> 0x0002 /\ cid <> 0x010A /\ cid <> 0x010B.
Proof.
  split.
  - intros H. repeat split; intros ->; discriminate H.
  - intros (N1 & N2 & N3). unfold _command_packets. by simplify_map_eq.
Qed.

Lemma class_command_id_u16 (cls : response_class) :
  0 <= class_command_id cls < 65536.
Proof. destruct cls; simpl; lia. Qed.

Lemma XcCommandRequestPacket_u16 (cid : Z) (parameters : bytes) :
  0 <= cid < 65536 ->
  XcCommandRequestPacket cid parameters =
  Ok (mkPacket 0xF2 (int_to_byte cid :: int_to_byte (cid / 256) :: parameters)).
Proof.
  intros Hc. unfold XcCommandRequestPacket.
  rewrite int_to_bytes_u16 by exact Hc. reflexivity.
Qed.

Lemma XcCommandResponsePacket_header (b0 b1 : byte) (rest : bytes) :
  command_id (XcCommandResponsePacket (b0 :: b1 :: rest)) =
    byte_to_int b0 + 256 * byte_to_int b1
  /\ command_payload (XcCommandResponsePacket (b0 :: b1 :: rest)) = rest.
Proof. split; simpl; [lia | reflexivity]. Qed.

Lemma u16_digits (cid : Z) :
  0 <= cid < 65536 ->
  byte_to_int (int_to_byte cid) + 256 * byte_to_int (int_to_byte (cid / 256)) = cid.
Proof.
  intros Hc. rewrite !byte_to_int_to_byte.
  rewrite (Z.mod_small (cid / 256)).
  - pose proof (Z.div_mod cid 256 ltac:(lia)). lia.
  - split; [apply Z.div_pos; lia | apply Z.div_lt_upper_bound; lia].
Qed.

(** Re-encoding the header fields of a frame payload that has a complete
    command identifier gives the payload back. *)
Lemma reencode_header (b0 b1 : byte) (rest : bytes) :
  let p := XcCommandResponsePacket (b0 :: b1 :: rest) in
  XcCommandRequestPacket (command_id p) (command_payload p) =
  Ok (mkPacket 0xF2 (b0 :: b1 :: rest)).
Proof.
  pose proof (int_to_from_bytes [b0; b1]) as H.
  unfold XcCommandRequestPacket. simpl in *. rewrite H. reflexivity.
Qed.

End Codec.

(** C8.  The payload of an encoded request is the command identifier in two
    bytes, low byte first, followed by the parameter bytes; the four
    built-in requests have no parameters and encode to exactly the two
    identifier bytes. *)
Theorem request_is_id_then_parameters (cid : Z) (parameters : bytes) :
  0 <= cid < 65536 ->
  (exists lo hi : byte,
      byte_to_int lo = cid mod 256 /\
      byte_to_int hi = cid / 256 /\
      XcCommandRequestPacket cid parameters =
        Ok (mkPacket 0xF2 ([lo; hi] ++ parameters))) /\
  GetLastErrorRequestPacket = Ok (mkPacket 0xF2 [x02; x00]) /\
  GetAppSwVersionRequestPacket = Ok (mkPacket 0xF2 [x0a; x01]) /\
  GetAppSwNameRequestPacket = Ok (mkPacket 0xF2 [x0b; x01]) /\
  DfuRebootRequestPacket = Ok (mkPacket 0xF2 [xff; xff]).
Proof.
  intros Hc. split; [|repeat split; reflexivity].
  exists (int_to_byte cid), (int_to_byte (cid / 256)).
  rewrite !byte_to_int_to_byte. repeat split.
  - apply Z.mod_small.
    split; [apply Z.div_pos; lia | apply Z.div_lt_upper_bound; lia].
  - apply XcCommandRequestPacket_u16, Hc.
Qed.

Lemma request_is_id_then_parameters_witness :
  0 <= 0x010A < 65536 /\
  exists lo hi : byte,
    byte_to_int lo = 0x010A mod 256 /\
    byte_to_int hi = 0x010A / 256 /\
    XcCommandRequestPacket 0x010A [x07] = Ok (mkPacket 0xF2 ([lo; hi] ++ [x07])).
Proof.
  assert (H : 0 <= 0x010A < 65536) by lia.
  split; [exact H|].
  exact (proj1 (request_is_id_then_parameters 0x010A [x07] H)).
Defined.

(** C3.  For each registered command kind: decoding an encoded request
    gives back the command identifier and the parameter bytes, and a
    response frame decodes to its command identifier, status byte and result
    bytes, from which encoding rebuilds the frame. *)
Theorem codec_round_trip
    (cls : response_class) (parameters : bytes) (st : byte) (data : bytes) :
  (exists request,
      XcCommandRequestPacket (class_command_id cls) parameters = Ok request /\
      command_id (XcCommandResponsePacket (payload request)) = class_command_id cls /\
      command_payload (XcCommandResponsePacket (payload request)) = parameters) /\
  (exists header,
      int_to_bytes_little 2 (class_command_id cls) = Ok header /\
      let frame := header ++ st :: data in
      exists r status,
        command_id (XcCommandResponsePacket frame) = class_command_id cls /\
        get_command_packet (XcCommandResponsePacket frame) = Ok r /\
        response_cls r = cls /\
        get_status r = Ok status /\
        status = byte_to_int st /\
        drop 1 (response_payload r) = data /\
        XcCommandRequestPacket
          (command_id (XcCommandResponsePacket frame))
          (int_to_byte status :: drop 1 (response_payload r)) =
        Ok (mkPacket 0xF2 frame)).
Proof.
  pose proof (class_command_id_u16 cls) as Hc.
  pose proof (reencode_header (int_to_byte (class_command_id cls))
                (int_to_byte (class_command_id cls / 256))) as Hre.
  pose proof (XcCommandResponsePacket_header (int_to_byte (class_command_id cls))
                (int_to_byte (class_command_id cls / 256))) as Hh.
  rewrite (u16_digits _ Hc) in Hh.
  split.
  - eexists. split; [apply XcCommandRequestPacket_u16, Hc|].
    exact (Hh parameters).
  - eexists. split; [apply int_to_bytes_u16, Hc|].
    cbv zeta. change ([?a; ?b] ++ ?l) with (a :: b :: l).
    destruct (Hh (st :: data)) as [Hid Hpl].
    exists (mkResponse cls (st :: data)), (byte_to_int st).
    split; [exact Hid|]. split.
    + unfold get_command_packet. rewrite Hid, Hpl.
      by rewrite (proj2 (_command_packets_registered _ cls) eq_refl).
    + repeat split. cbn [response_payload drop].
      rewrite int_to_byte_to_int. rewrite <- Hpl at 1. apply Hre.
Qed.

(** C4, as the code has it.  A frame payload shorter than the three header
    bytes is not rejected.  The identifier is read from the bytes that are
    there, an absent byte counting as zero, and the command payload is
    empty.  When the identifier so read is in the table,
    [get_command_packet] returns an object of the registered class with an
    empty payload, and it is [get_status] on that object that raises, with
    [IndexError]; when it is not in the table [get_command_packet] raises
    [TypeError].  For a frame of any length, an identifier absent from the
    table makes [get_command_packet] raise [TypeError]. *)
Theorem short_or_unregistered_frame (frame : bytes) :
  let p := XcCommandResponsePacket frame in
  ((length frame < 3)%nat ->
   (frame = [] -> command_id p = 0) /\
   (forall b0, frame = [b0] -> command_id p = byte_to_int b0) /\
   (forall b0 b1, frame = [b0; b1] ->
                  command_id p = byte_to_int b0 + 256 * byte_to_int b1) /\
   command_payload p = [] /\
   (forall cls,
       _command_packets !! command_id p = Some cls ->
       get_command_packet p = Ok (mkResponse cls []) /\
       get_status (mkResponse cls []) = Raise IndexError) /\
   (_command_packets !! command_id p = None ->
    get_command_packet p = Raise TypeError)) /\
  (_command_packets !! command_id p = None ->
   get_command_packet p = Raise TypeError).
Proof.
  cbv zeta.
  assert (Hnone : _command_packets !! command_id (XcCommandResponsePacket frame) = None ->
                  get_command_packet (XcCommandResponsePacket frame) = Raise TypeError).
  { intros H. unfold get_command_packet. by rewrite H. }
  split; [|exact Hnone].
  intros Hlen.
  assert (Hpl : command_payload (XcCommandResponsePacket frame) = []).
  { destruct frame as [|b0 [|b1 [|b2 rest]]]; simpl in Hlen; try lia; reflexivity. }
  split; [intros ->; reflexivity|].
  split; [intros b0 ->; simpl; lia|].
  split; [intros b0 b1 ->; simpl; lia|].
  split; [exact Hpl|]. split; [|exact Hnone].
  intros cls Hreg. unfold get_command_packet. rewrite Hreg, Hpl.
  split; reflexivity.
Qed.

Lemma short_or_unregistered_frame_witness :
  (length [x02; x00] < 3)%nat /\
  (length [x02] < 3)%nat /\
  _command_packets !! command_id (XcCommandResponsePacket [x02; x00])
    = Some GetLastErrorResponsePacket /\
  _command_packets !! command_id (XcCommandResponsePacket [x02])
    = Some GetLastErrorResponsePacket /\
  _command_packets !! command_id (XcCommandResponsePacket [x05; x00; x00]) = None /\
  (get_command_packet (XcCommandResponsePacket [x02; x00])
     = Ok (mkResponse GetLastErrorResponsePacket []) /\
   get_status (mkResponse GetLastErrorResponsePacket []) = Raise IndexError) /\
  (get_command_packet (XcCommandResponsePacket [x02])
     = Ok (mkResponse GetLastErrorResponsePacket []) /\
   get_status (mkResponse GetLastErrorResponsePacket []) = Raise IndexError) /\
  get_command_packet (XcCommandResponsePacket [x05; x00; x00]) = Raise TypeError.
Proof.
  assert (Hlen2 : (length [x02; x00] < 3)%nat) by (simpl; lia).
  assert (Hlen1 : (length [x02] < 3)%nat) by (simpl; lia).
  assert (Hreg2 : _command_packets !! command_id (XcCommandResponsePacket [x02; x00])
                  = Some GetLastErrorResponsePacket) by (vm_compute; reflexivity).
  assert (Hreg1 : _command_packets !! command_id (XcCommandResponsePacket [x02])
                  = Some GetLastErrorResponsePacket) by (vm_compute; reflexivity).
  assert (Hnone : _command_packets
                    !! command_id (XcCommandResponsePacket [x05; x00; x00]) = None)
    by (vm_compute; reflexivity).
  split; [exact Hlen2|]. split; [exact Hlen1|]. split; [exact Hreg2|].
  split; [exact Hreg1|]. split; [exact Hnone|]. split; [|split].
  - destruct (proj1 (short_or_unregistered_frame [x02; x00]) Hlen2)
      as (_ & _ & _ & _ & Hobj & _).
    exact (Hobj GetLastErrorResponsePacket Hreg2).
  - destruct (proj1 (short_or_unregistered_frame [x02]) Hlen1)
      as (_ & _ & _ & _ & Hobj & _).
    exact (Hobj GetLastErrorResponsePacket Hreg1).
  - exact (proj2 (short_or_unregistered_frame [x05; x00; x00]) Hnone).
Defined.

(** C4, as stated, fails.  The two-byte payload [02 00] is shorter than the
    header, yet it decodes to a get-last-error response without any error;
    the failure only comes later and is the builtin [IndexError].  The
    payload [05 00 00] names no registered command, and the error raised is
    the builtin [TypeError]. *)
Lemma short_frame_is_not_rejected :
  get_command_packet (XcCommandResponsePacket [x02; x00]) =
    Ok (mkResponse GetLastErrorResponsePacket []) /\
  get_status (mkResponse GetLastErrorResponsePacket []) = Raise IndexError /\
  get_command_packet (XcCommandResponsePacket [x05; x00; x00]) = Raise TypeError /\
  exn_name IndexError <> "ProtocolViolation" /\
  exn_name TypeError <> "ProtocolViolation".
Proof.
  repeat split; try (vm_compute; reflexivity); discriminate.
Qed.

(** ** One exchange with the device *)

Lemma get_byte_array_fits (p : Packet) :
  Z.of_nat (length (payload p)) < 65536 -> get_byte_array p = Ok p.
Proof.
  intros Hfits. unfold get_byte_array.
  rewrite int_to_bytes_u16 by lia. reflexivity.
Qed.

Lemma get_byte_array_overflow (p : Packet) :
  65536 <= Z.of_nat (length (payload p)) -> get_byte_array p = Raise OverflowError.
Proof.
  intros Hlong. unfold get_byte_array, int_to_bytes_little.
  change (256 ^ Z.of_nat 2) with 65536.
  destruct (Z.ltb_spec (Z.of_nat (length (payload p))) 65536); [lia|].
  rewrite andb_false_r. reflexivity.
Qed.

Lemma request_packet_fits (c : command) :
  Z.of_nat (length (payload (request_packet c))) < 65536.
Proof. destruct c; simpl; lia. Qed.

Section Exchange.

Variables (s : state) (packet : Packet).
Hypothesis Hfits : Z.of_nat (length (payload packet)) < 65536.

Lemma _send_packet_open (port : string) :
  _ser (self s) = Some port ->
  _send_packet packet s =
  (Ok tt, logged [SerialWrite packet; LogDebugSending packet] s).
Proof.
  intros Hser.
  unfold _send_packet, bind, lift_result, emit, in_env, emit_w, get_self.
  rewrite (get_byte_array_fits _ Hfits).
  simpl. rewrite Hser. reflexivity.
Qed.

Lemma _send_packet_closed :
  _ser (self s) = None ->
  _send_packet packet s = (Raise AttributeError, logged [LogDebugSending packet] s).
Proof.
  intros Hser.
  unfold _send_packet, bind, lift_result, emit, in_env, emit_w, get_self.
  rewrite (get_byte_array_fits _ Hfits).
  simpl. rewrite Hser. reflexivity.
Qed.

Lemma _execute_request_reply (port : string) (frame : bytes) :
  _ser (self s) = Some port ->
  incoming (env s) (waits (env s)) = Some frame ->
  _execute_request packet s =
  (get_command_packet (XcCommandResponsePacket frame), exchanged packet s).
Proof.
  intros Hser Hin. unfold _execute_request, try_except, bind.
  rewrite (_send_packet_open port Hser).
  unfold get_self, in_env, wait_packet, lift_result, logged. simpl.
  rewrite Hin.
  destruct (get_command_packet (XcCommandResponsePacket frame)) as [r|e] eqn:Hg;
    [reflexivity|].
  assert (He : e = TypeError).
  { unfold get_command_packet in Hg.
    destruct (_command_packets !! _); congruence. }
  subst e. reflexivity.
Qed.

Lemma _execute_request_timeout (port : string) :
  _ser (self s) = Some port ->
  incoming (env s) (waits (env s)) = None ->
  _execute_request packet s =
  (Raise (TimeoutError "_execute_request timeout"),
   logged [LogError "read timeout"] (exchanged packet s)).
Proof.
  intros Hser Hin. unfold _execute_request, try_except, bind.
  rewrite (_send_packet_open port Hser).
  unfold get_self, in_env, wait_packet, lift_result, logged. simpl.
  rewrite Hin. reflexivity.
Qed.

Lemma _execute_request_closed :
  _ser (self s) = None ->
  _execute_request packet s =
  (Raise AttributeError, logged [LogDebugSending packet] s).
Proof.
  intros Hser. unfold _execute_request, try_except, bind.
  rewrite (_send_packet_closed Hser). reflexivity.
Qed.

Lemma writes_exchanged :
  writes (env (exchanged packet s)) = packet :: writes (env s).
Proof. reflexivity. Qed.

Lemma writes_logged_error (msg : string) :
  writes (env (logged [LogError msg] s)) = writes (env s).
Proof. reflexivity. Qed.

End Exchange.

(** ** The command methods, one step at a time *)

Section Commands.

Lemma request_of_packet (c : command) : request_of c = Ok (request_packet c).
Proof. destruct c; reflexivity. Qed.

Lemma call_unfold (c : command) (limit : nat) :
  call c (S limit) =
  (packet <- lift_result (request_of c);;
   response <- _execute_request packet;;
   status <- lift_result (get_status response);;
   text <- lift_result (accessor c response);;
   if negb (status =? 0) then
     error_msg <- get_last_error (nested_limit c limit);;
     raise (CommandFailed (command_failed_message status error_msg))
   else ret text).
Proof. destruct c; reflexivity. Qed.

Variables (c : command) (limit : nat) (s : state).

Lemma call_reply (port : string) (frame : bytes) :
  _ser (self s) = Some port ->
  incoming (env s) (waits (env s)) = Some frame ->
  call c (S limit) s =
  let s1 := exchanged (request_packet c) s in
  match get_command_packet (XcCommandResponsePacket frame) with
  | Raise e => (Raise e, s1)
  | Ok r =>
      match get_status r with
      | Raise e => (Raise e, s1)
      | Ok status =>
          match accessor c r with
          | Raise e => (Raise e, s1)
          | Ok text =>
              if negb (status =? 0) then
                match get_last_error (nested_limit c limit) s1 with
                | (Ok error_msg, s2) =>
                    (Raise (CommandFailed (command_failed_message status error_msg)), s2)
                | (Raise e, s2) => (Raise e, s2)
                end
              else (Ok text, s1)
          end
      end
  end.
Proof.
  intros Hser Hin. rewrite call_unfold.
  unfold bind, lift_result, raise, ret.
  rewrite request_of_packet, (_execute_request_reply s _ (request_packet_fits c) port frame Hser Hin).
  cbv zeta.
  destruct (get_command_packet _) as [r|e]; [|reflexivity].
  destruct (get_status r) as [status|e]; [|reflexivity].
  destruct (accessor c r) as [text|e]; [|reflexivity].
  destruct (negb (status =? 0)); reflexivity.
Qed.

Lemma call_timeout (port : string) :
  _ser (self s) = Some port ->
  incoming (env s) (waits (env s)) = None ->
  call c (S limit) s =
  (Raise (TimeoutError "_execute_request timeout"),
   logged [LogError "read timeout"] (exchanged (request_packet c) s)).
Proof.
  intros Hser Hin. rewrite call_unfold.
  unfold bind, lift_result.
  rewrite request_of_packet, (_execute_request_timeout s _ (request_packet_fits c) port Hser Hin).
  reflexivity.
Qed.

Lemma call_closed :
  _ser (self s) = None ->
  call c (S limit) s =
  (Raise AttributeError, logged [LogDebugSending (request_packet c)] s).
Proof.
  intros Hser. rewrite call_unfold.
  unfold bind, lift_result.
  rewrite request_of_packet, (_execute_request_closed s _ (request_packet_fits c) Hser).
  reflexivity.
Qed.

(** Decoding a well-formed reply to the command that was sent. *)
Lemma decode_own_reply (st : byte) (text : bytes) :
  get_command_packet (XcCommandResponsePacket (reply_frame c st text)) =
    Ok (mkResponse (command_class c) (st :: text))
  /\ get_status (mkResponse (command_class c) (st :: text)) = Ok (byte_to_int st)
  /\ accessor c (mkResponse (command_class c) (st :: text)) = decode_ascii text.
Proof. destruct c; repeat split; reflexivity. Qed.

Lemma decode_ascii_text (text : bytes) :
  forallb is_ascii text = true ->
  decode_ascii text = Ok (string_of_list_byte text).
Proof. intros H. unfold decode_ascii. by rewrite H. Qed.

(** A reply with status 0 and ASCII text: the text is returned, after one
    request and one wait. *)
Lemma call_success (port : string) (text : bytes) :
  _ser (self s) = Some port ->
  incoming (env s) (waits (env s)) = Some (reply_frame c x00 text) ->
  forallb is_ascii text = true ->
  call c (S limit) s =
  (Ok (string_of_list_byte text), exchanged (request_packet c) s).
Proof.
  intros Hser Hin Hascii.
  rewrite (call_reply port _ Hser Hin). cbv zeta.
  destruct (decode_own_reply x00 text) as (-> & -> & ->).
  rewrite (decode_ascii_text _ Hascii). reflexivity.
Qed.

(** A reply with a nonzero status and ASCII text: the error fetch runs in
    the state left by the exchange, and the method raises whatever the
    fetch raises, or [CommandFailed] around the message it returns. *)
Lemma call_failure (port : string) (st : byte) (text : bytes) :
  _ser (self s) = Some port ->
  incoming (env s) (waits (env s)) = Some (reply_frame c st text) ->
  forallb is_ascii text = true ->
  byte_to_int st <> 0 ->
  call c (S limit) s =
  match get_last_error (nested_limit c limit) (exchanged (request_packet c) s) with
  | (Ok error_msg, s2) =>
      (Raise (CommandFailed (command_failed_message (byte_to_int st) error_msg)), s2)
  | (Raise e, s2) => (Raise e, s2)
  end.
Proof.
  intros Hser Hin Hascii Hst.
  rewrite (call_reply port _ Hser Hin). cbv zeta.
  destruct (decode_own_reply st text) as (-> & -> & ->).
  rewrite (decode_ascii_text _ Hascii).
  destruct (Z.eqb_spec (byte_to_int st) 0) as [E|_]; [contradiction|].
  reflexivity.
Qed.

End Commands.

(** ** Construction *)

Lemma init_on_linux (port : string) (w : world) :
  platform_system w = "Linux" ->
  port_free w port = true ->
  exists w',
    __init__ port w = (Ok (mkXCCommunication (Some port) (DEFAULT_READ_TIMEOUT w) true), w') /\
    trace w' = ReaderStart :: SerialOpen port :: trace w.
Proof.
  intros Hsys Hfree. unfold __init__, serial_Serial, bind, emit_w, ret.
  rewrite Hsys. simpl. rewrite Hfree. eexists. split; reflexivity.
Qed.

Lemma session_on_is_init (frames : nat -> option bytes) :
  __init__ "/dev/ttyACM0" (linux frames) =
  (Ok (self (session_on frames)), env (session_on frames)).
Proof. reflexivity. Qed.

(** C10.  On a platform other than Linux the constructor raises [OSError];
    the only thing it does before is to log the error, so no serial port is
    opened, no reader is started and no object is returned. *)
Theorem init_rejects_other_platforms (port : string) (w : world) :
  platform_system w <> "Linux" ->
  exists w',
    __init__ port w = (Raise (OSError "Module only supports Linux."), w') /\
    trace w' = LogError ("Unsupported OS: " +:+ platform_system w) :: trace w /\
    waits w' = waits w.
Proof.
  intros Hsys. unfold __init__, bind, emit_w, raise.
  destruct (String.eqb_spec (platform_system w) "Linux") as [E|_];
    [contradiction|].
  simpl. eexists. repeat split.
Qed.

Lemma init_rejects_other_platforms_witness :
  platform_system (mkWorld "Windows" (fun _ => true) 2 (fun _ => None) 0 []) <> "Linux" /\
  exists w',
    __init__ "COM3" (mkWorld "Windows" (fun _ => true) 2 (fun _ => None) 0 []) =
      (Raise (OSError "Module only supports Linux."), w') /\
    trace w' = [LogError "Unsupported OS: Windows"] /\
    waits w' = 0%nat.
Proof.
  assert (H : platform_system (mkWorld "Windows" (fun _ => true) 2 (fun _ => None) 0 [])
              <> "Linux") by discriminate.
  split; [exact H|].
  exact (init_rejects_other_platforms "COM3" _ H).
Defined.

(** ** Decoding a response *)

(** C9.  In a frame payload of at least three bytes the first two bytes are
    the command identifier, low byte first, the third is the status, and the
    rest is the text that the accessor of the registered class decodes as
    ASCII.  With the reply [0A 01 00 "2.1.0"], [get_app_sw_version] returns
    ["2.1.0"]. *)
Theorem response_is_id_status_text (b0 b1 st : byte) (text : bytes) :
  let p := XcCommandResponsePacket (b0 :: b1 :: st :: text) in
  command_id p = byte_to_int b0 + 256 * byte_to_int b1 /\
  (forall c : command,
      command_id p = class_command_id (command_class c) ->
      exists r,
        get_command_packet p = Ok r /\
        get_status r = Ok (byte_to_int st) /\
        accessor c r = decode_ascii text) /\
  (forallb is_ascii text = true ->
   decode_ascii text = Ok (string_of_list_byte text)) /\
  (forall (s : state) (port : string) (limit : nat),
      _ser (self s) = Some port ->
      incoming (env s) (waits (env s)) = Some ([x0a; x01; x00] ++ bytes_of "2.1.0") ->
      fst (get_app_sw_version limit s) = Ok "2.1.0").
Proof.
  cbv zeta.
  destruct (XcCommandResponsePacket_header b0 b1 (st :: text)) as [Hid Hpl].
  split; [exact Hid|]. split; [|split].
  - intros c Hc. exists (mkResponse (command_class c) (st :: text)).
    split; [|split; [reflexivity | by destruct c]].
    unfold get_command_packet. rewrite Hpl, Hc.
    by rewrite (proj2 (_command_packets_registered _ _) eq_refl).
  - apply decode_ascii_text.
  - intros s port limit Hser Hin.
    change (get_app_sw_version limit) with (call GetAppSwVersion limit).
    assert (Hs : forall l, fst (call GetAppSwVersion (S l) s) = Ok "2.1.0").
    { intros l.
      rewrite (call_success GetAppSwVersion l s port (bytes_of "2.1.0") Hser Hin eq_refl).
      reflexivity. }
    destruct limit as [|l]; [|apply Hs].
    unfold call, get_app_sw_version, bind, lift_result.
    change GetAppSwVersionRequestPacket with (Ok (mkPacket 0xF2 [x0a; x01])).
    cbv beta iota.
    rewrite (_execute_request_reply s (mkPacket 0xF2 [x0a; x01]) ltac:(simpl; lia)
               port _ Hser Hin).
    reflexivity.
Qed.

Lemma response_is_id_status_text_witness :
  _ser (self (session_on (queue_of [[x0a; x01; x00] ++ bytes_of "2.1.0"]))) =
    Some "/dev/ttyACM0" /\
  fst (get_app_sw_version 1000
         (session_on (queue_of [[x0a; x01; x00] ++ bytes_of "2.1.0"]))) = Ok "2.1.0".
Proof.
  split; [reflexivity|].
  exact (proj2 (proj2 (proj2
           (response_is_id_status_text x0a x01 x00 (bytes_of "2.1.0"))))
           (session_on (queue_of [[x0a; x01; x00] ++ bytes_of "2.1.0"]))
           "/dev/ttyACM0" 1000%nat eq_refl eq_refl).
Defined.

(** ** Timeout *)

(** C5.  When the wait of a command on an open session delivers no frame,
    the command raises [TimeoutError] (not [CommandFailed]) after one write
    and one wait, the session object is unchanged, nothing is closed or
    stopped, and the next command on the session succeeds when its reply
    arrives. *)
Theorem timeout_fails_once_and_keeps_session
    (c : command) (limit : nat) (s : state) (port : string) :
  _ser (self s) = Some port ->
  incoming (env s) (waits (env s)) = None ->
  exists s',
    call c (S limit) s = (Raise (TimeoutError "_execute_request timeout"), s') /\
    (forall msg,
        exn_name (TimeoutError "_execute_request timeout")
        <> exn_name (CommandFailed msg)) /\
    self s' = self s /\
    trace (env s') =
      [LogError "read timeout"; WaitPacket 0xF2 (_timeout (self s));
       SerialWrite (request_packet c); LogDebugSending (request_packet c)]
      ++ trace (env s) /\
    (forall text,
        incoming (env s) (S (waits (env s))) = Some (reply_frame c x00 text) ->
        forallb is_ascii text = true ->
        fst (call c (S limit) s') = Ok (string_of_list_byte text)).
Proof.
  intros Hser Hin.
  exists (logged [LogError "read timeout"] (exchanged (request_packet c) s)).
  split; [exact (call_timeout c limit s port Hser Hin)|].
  split; [discriminate|].
  split; [reflexivity|]. split; [reflexivity|].
  intros text Hnext Hascii.
  rewrite (call_success c limit _ port text);
    [reflexivity | exact Hser | exact Hnext | exact Hascii].
Qed.

Lemma timeout_fails_once_and_keeps_session_witness :
  _ser (self (session_on late_device)) = Some "/dev/ttyACM0" /\
  incoming (env (session_on late_device)) (waits (env (session_on late_device))) = None /\
  exists s',
    get_app_sw_name 1000 (session_on late_device) =
      (Raise (TimeoutError "_execute_request timeout"), s') /\
    self s' = self (session_on late_device) /\
    fst (get_app_sw_name 1000 s') = Ok "xc120".
Proof.
  split; [reflexivity|]. split; [reflexivity|].
  destruct (timeout_fails_once_and_keeps_session GetAppSwName 999
              (session_on late_device) "/dev/ttyACM0" eq_refl eq_refl)
    as (s' & Hcall & _ & Hself & _ & Hnext).
  exists s'. split; [exact Hcall|]. split; [exact Hself|].
  exact (Hnext (bytes_of "xc120") eq_refl eq_refl).
Defined.

(** ** The status byte and the error fetch *)

Lemma byte_to_int_zero (st : byte) : byte_to_int st = 0 -> st = x00.
Proof.
  intros H. rewrite <- (int_to_byte_to_int st), H. reflexivity.
Qed.


Lemma get_last_error_is_call (limit : nat) :
  get_last_error limit = call GetLastError limit.
Proof. reflexivity. Qed.






(** ** A reply to another command *)

(** C2, as the code has it.  [_execute_request] does not compare the command
    identifier of the reply with the one it sent: it returns whatever the
    reply decodes to.  When the reply's identifier is not in the table,
    decoding raises [TypeError] and so does the command method.  When it is
    the identifier of another registered class, [_execute_request] returns
    an object of that class holding the reply's command payload, and the
    command method fails with [IndexError] if that payload is empty (no
    status byte) and otherwise with [AttributeError], raised when it asks
    the foreign object for its own text accessor.  In every case exactly
    one request was written and one frame awaited, and no value is
    returned. *)
Theorem mismatched_response_fails_at_accessor
    (c : command) (limit : nat) (s : state) (port : string) (frame : bytes) :
  _ser (self s) = Some port ->
  incoming (env s) (waits (env s)) = Some frame ->
  command_id (XcCommandResponsePacket frame) <> class_command_id (command_class c) ->
  let p := XcCommandResponsePacket frame in
  let s1 := exchanged (request_packet c) s in
  (_command_packets !! command_id p = None ->
   _execute_request (request_packet c) s = (Raise TypeError, s1) /\
   call c (S limit) s = (Raise TypeError, s1)) /\
  (forall cls,
      _command_packets !! command_id p = Some cls ->
      cls <> command_class c /\
      _execute_request (request_packet c) s =
        (Ok (mkResponse cls (command_payload p)), s1) /\
      (command_payload p = [] ->
       call c (S limit) s = (Raise IndexError, s1)) /\
      (command_payload p <> [] ->
       call c (S limit) s = (Raise AttributeError, s1))).
Proof.
  intros Hser Hin Hne. cbv zeta.
  pose proof (_execute_request_reply s _ (request_packet_fits c) port frame Hser Hin)
    as Hexe.
  pose proof (call_reply c limit s port frame Hser Hin) as Hcall.
  cbv zeta in Hcall. unfold get_command_packet in Hexe, Hcall.
  remember (XcCommandResponsePacket frame) as p eqn:Hp.
  split.
  - intros Hnone. rewrite Hnone in Hexe, Hcall. split; assumption.
  - intros cls Hreg. rewrite Hreg in Hexe, Hcall.
    assert (Hcls : cls <> command_class c).
    { intros ->. apply Hne. by apply _command_packets_registered. }
    split; [exact Hcls|]. split; [exact Hexe|].
    unfold get_status, getitem0 in Hcall. cbn [response_payload] in Hcall.
    destruct (command_payload p) as [|b rest].
    + split; [intros _; exact Hcall | intros Hnon; contradiction].
    + split; [discriminate|]. intros _.
      assert (Hacc : accessor c (mkResponse cls (b :: rest)) = Raise AttributeError)
        by (destruct c, cls; try reflexivity; contradiction).
      rewrite Hacc in Hcall. exact Hcall.
Qed.

Lemma mismatched_response_fails_at_accessor_witness :
  let frame := reply_frame GetAppSwVersion x00 (bytes_of "2.1.0") in
  let s0 := session_on (queue_of [frame]) in
  _ser (self s0) = Some "/dev/ttyACM0" /\
  incoming (env s0) (waits (env s0)) = Some frame /\
  command_id (XcCommandResponsePacket frame)
    <> class_command_id (command_class GetAppSwName) /\
  _command_packets !! command_id (XcCommandResponsePacket frame)
    = Some GetAppSwVersionResponsePacket /\
  command_payload (XcCommandResponsePacket frame) <> [] /\
  _execute_request (request_packet GetAppSwName) s0 =
    (Ok (mkResponse GetAppSwVersionResponsePacket (x00 :: bytes_of "2.1.0")),
     exchanged (request_packet GetAppSwName) s0) /\
  get_app_sw_name 1000 s0 =
    (Raise AttributeError, exchanged (request_packet GetAppSwName) s0).
Proof.
  cbv zeta.
  assert (Hne : command_id (XcCommandResponsePacket
                              (reply_frame GetAppSwVersion x00 (bytes_of "2.1.0")))
                <> class_command_id (command_class GetAppSwName)) by discriminate.
  assert (Hreg : _command_packets
                   !! command_id (XcCommandResponsePacket
                                    (reply_frame GetAppSwVersion x00 (bytes_of "2.1.0")))
                 = Some GetAppSwVersionResponsePacket) by (vm_compute; reflexivity).
  assert (Hnon : command_payload (XcCommandResponsePacket
                                    (reply_frame GetAppSwVersion x00 (bytes_of "2.1.0")))
                 <> []) by discriminate.
  split; [reflexivity|]. split; [reflexivity|]. split; [exact Hne|].
  split; [exact Hreg|]. split; [exact Hnon|].
  destruct (proj2 (mismatched_response_fails_at_accessor GetAppSwName 999
                     (session_on (queue_of [reply_frame GetAppSwVersion x00 (bytes_of "2.1.0")]))
                     "/dev/ttyACM0" _ eq_refl eq_refl Hne)
                  GetAppSwVersionResponsePacket Hreg)
    as (_ & Hexe & _ & Hattr).
  split; [exact Hexe | exact (Hattr Hnon)].
Defined.

(** C2, as stated, fails.  [get_app_sw_name] receives a well-formed reply to
    get-app-version: [_execute_request] decodes it and returns it, and the
    method ends in [AttributeError]. *)
Lemma mismatched_response_is_decoded :
  let frame := reply_frame GetAppSwVersion x00 (bytes_of "2.1.0") in
  let s0 := session_on (queue_of [frame]) in
  command_id (XcCommandResponsePacket frame) = 0x010A /\
  class_command_id (command_class GetAppSwName) = 0x010B /\
  fst (_execute_request (request_packet GetAppSwName) s0) =
    Ok (mkResponse GetAppSwVersionResponsePacket (x00 :: bytes_of "2.1.0")) /\
  fst (get_app_sw_name 1000 s0) = Raise AttributeError /\
  exn_name AttributeError <> "ProtocolViolation".
Proof.
  cbv zeta. repeat split; try (vm_compute; reflexivity). discriminate.
Qed.

(** ** Close *)

(** C7, as the code has it.  [close] on a session that holds its serial
    handle stops the reader, closes the handle and sets [_ser] to [None].
    From then on [stop] changes nothing, and every command method raises
    [AttributeError] at the write on the absent handle, before anything is
    written or awaited. *)
Theorem calls_after_close_fail (s : state) (port : string) :
  _ser (self s) = Some port ->
  exists s',
    close s = (Ok tt, s') /\
    _ser (self s') = None /\
    _reader_started (self s') = false /\
    stop s' = (Ok tt, s') /\
    (forall c limit,
        call c (S limit) s' =
        (Raise AttributeError, logged [LogDebugSending (request_packet c)] s')) /\
    dfu_reboot s' =
      (Raise AttributeError, logged [LogDebugSending (mkPacket 0xF2 [xff; xff])] s').
Proof.
  intros Hser.
  destruct s as [[ser tmo started] w]. simpl in Hser. subst ser.
  assert (Hclose : exists s', close (mkState (mkXCCommunication (Some port) tmo started) w)
                              = (Ok tt, s')
                              /\ _ser (self s') = None
                              /\ _reader_started (self s') = false).
  { destruct started; eexists; (split; [reflexivity|]); split; reflexivity. }
  destruct Hclose as (s' & Hclose & Hnone & Hstopped).
  exists s'. split; [exact Hclose|]. split; [exact Hnone|]. split; [exact Hstopped|].
  split; [|split].
  - unfold stop, bind, get_self. rewrite Hstopped. reflexivity.
  - intros c limit. exact (call_closed c limit s' Hnone).
  - unfold dfu_reboot, bind, lift_result.
    change DfuRebootRequestPacket with (Ok (mkPacket 0xF2 [xff; xff])).
    cbv beta iota.
    exact (_send_packet_closed s' (mkPacket 0xF2 [xff; xff]) ltac:(simpl; lia) Hnone).
Qed.

Lemma calls_after_close_fail_witness :
  _ser (self (session_on (fun _ => None))) = Some "/dev/ttyACM0" /\
  exists s',
    close (session_on (fun _ => None)) = (Ok tt, s') /\
    _ser (self s') = None /\
    stop s' = (Ok tt, s') /\
    fst (get_last_error 1000 s') = Raise AttributeError.
Proof.
  split; [reflexivity|].
  destruct (calls_after_close_fail (session_on (fun _ => None)) "/dev/ttyACM0" eq_refl)
    as (s' & Hclose & Hnone & _ & Hstop & Hcall & _).
  exists s'. split; [exact Hclose|]. split; [exact Hnone|]. split; [exact Hstop|].
  change (get_last_error 1000) with (call GetLastError 1000).
  rewrite (Hcall GetLastError 999%nat). reflexivity.
Defined.

(** C7, as stated, fails.  After [close] a command does fail, but with the
    builtin [AttributeError] of the absent handle; and a second [close]
    finds the reader stopped, calls [close] on the absent handle and raises
    [AttributeError] too. *)
Lemma call_after_close_is_attribute_error :
  fst (close (session_on (fun _ => None))) = Ok tt /\
  fst (get_app_sw_version 1000 closed_session) = Raise AttributeError /\
  exn_name AttributeError <> "NotConnected" /\
  close closed_session = (Raise AttributeError, closed_session).
Proof.
  repeat split; try (vm_compute; reflexivity). discriminate.
Qed.

(** ** The error fetch calls itself *)

(** Once a get-last-error reply carries a nonzero status, [get_last_error]
    returns no message, whatever the recursion budget and whatever the
    device sends next: it raises what the nested fetch raises, or
    [CommandFailed] around what the nested fetch returns. *)
Lemma get_last_error_returns_no_fallback
    (limit : nat) (s : state) (port : string) (st : byte) (text : bytes) :
  _ser (self s) = Some port ->
  incoming (env s) (waits (env s)) = Some (reply_frame GetLastError st text) ->
  byte_to_int st <> 0 ->
  exists e s', get_last_error limit s = (Raise e, s').
Proof.
  intros Hser Hin Hst. destruct limit as [|limit]; [simpl; unfold raise; eauto|].
  rewrite get_last_error_is_call, (call_reply GetLastError limit s port _ Hser Hin).
  cbv zeta.
  destruct (decode_own_reply GetLastError st text) as (-> & -> & ->).
  destruct (decode_ascii text); [|eauto].
  destruct (Z.eqb_spec (byte_to_int st) 0) as [E|_]; [contradiction|].
  cbn [negb].
  destruct (get_last_error _ _) as [[msg|e] s2]; eauto.
Qed.

Lemma replicate_snoc_cons {A : Type} (n : nat) (x : A) (l : list A) :
  replicate n x ++ x :: l = replicate (S n) x ++ l.
Proof.
  induction n as [|n IH]; simpl; [reflexivity|]. f_equal. exact IH.
Qed.

(** C1 fails on the code.  When the device answers every get-last-error
    request with a nonzero status, [get_last_error] sends a new request for
    each answer and goes on until the interpreter's recursion budget is used
    up: for every budget [limit] it has sent [limit] requests and ends in
    [RecursionError], never in a message. *)
Theorem get_last_error_exhausts_recursion
    (limit : nat) (s : state) (port : string) :
  _ser (self s) = Some port ->
  (forall k, (waits (env s) <= k)%nat ->
     exists st text,
       incoming (env s) k = Some (reply_frame GetLastError st text) /\
       byte_to_int st <> 0 /\
       forallb is_ascii text = true) ->
  exists s',
    get_last_error limit s = (Raise RecursionError, s') /\
    writes (env s') =
      replicate limit (request_packet GetLastError) ++ writes (env s).
Proof.
  revert s. induction limit as [|limit IH]; intros s Hser Hdev.
  - exists s. split; reflexivity.
  - destruct (Hdev (waits (env s)) (le_n _)) as (st & text & Hin & Hst & Hascii).
    rewrite get_last_error_is_call.
    rewrite (call_failure GetLastError limit s port st text Hser Hin Hascii Hst).
    cbn [nested_limit].
    destruct (IH (exchanged (request_packet GetLastError) s) Hser) as (s' & Hrec & Hw).
    { intros k Hk. apply Hdev. simpl in Hk. lia. }
    rewrite Hrec. exists s'. split; [reflexivity|].
    rewrite Hw, writes_exchanged. apply replicate_snoc_cons.
Qed.

Lemma get_last_error_exhausts_recursion_witness :
  _ser (self (session_on always_failing)) = Some "/dev/ttyACM0" /\
  (forall k, (waits (env (session_on always_failing)) <= k)%nat ->
     exists st text,
       incoming (env (session_on always_failing)) k
         = Some (reply_frame GetLastError st text) /\
       byte_to_int st <> 0 /\
       forallb is_ascii text = true) /\
  exists s',
    get_last_error 1000 (session_on always_failing) = (Raise RecursionError, s') /\
    writes (env s') = replicate 1000 (request_packet GetLastError).
Proof.
  assert (Hdev : forall k, (waits (env (session_on always_failing)) <= k)%nat ->
     exists st text,
       incoming (env (session_on always_failing)) k
         = Some (reply_frame GetLastError st text) /\
       byte_to_int st <> 0 /\
       forallb is_ascii text = true).
  { intros k _. exists x01, (bytes_of "E").
    split; [reflexivity|]. split; [discriminate | reflexivity]. }
  split; [reflexivity|]. split; [exact Hdev|].
  destruct (get_last_error_exhausts_recursion 1000 (session_on always_failing)
              "/dev/ttyACM0" eq_refl Hdev) as (s' & Hrun & Hw).
  exists s'. split; [exact Hrun|].
  rewrite Hw. apply app_nil_r.
Defined.

(** Two failing answers and then a good one: the fetch has called itself
    twice, and what comes out is the failure of the innermost failing
    fetch, not a message. *)
Example get_last_error_twice_failing :
  let s0 := session_on (queue_of [reply_frame GetLastError x01 (bytes_of "E");
                                  reply_frame GetLastError x02 (bytes_of "F");
                                  reply_frame GetLastError x00 (bytes_of "ok")]) in
  fst (get_last_error 1000 s0) = Raise (CommandFailed "Command failed with code 2 [ok]") /\
  writes (env (snd (get_last_error 1000 s0))) = replicate 3 (request_packet GetLastError).
Proof. cbv zeta. split; vm_compute; reflexivity. Qed.

(** ** More on the codec *)

(** X1.  A request is encoded exactly when the command identifier fits in
    two bytes: then the payload is two bytes longer than the parameters and
    ends with them; any other identifier raises [OverflowError]. *)
Theorem request_encoding_range (cid : Z) (parameters : bytes) :
  (0 <= cid < 65536 ->
   exists packet,
     XcCommandRequestPacket cid parameters = Ok packet /\
     packet_type packet = 0xF2 /\
     length (payload packet) = (2 + length parameters)%nat /\
     drop 2 (payload packet) = parameters) /\
  (cid < 0 \/ 65536 <= cid ->
   XcCommandRequestPacket cid parameters = Raise OverflowError).
Proof.
  split.
  - intros Hc. eexists. split; [apply XcCommandRequestPacket_u16, Hc|].
    repeat split.
  - intros Hc. unfold XcCommandRequestPacket, int_to_bytes_little.
    change (256 ^ Z.of_nat 2) with 65536.
    destruct (Z.leb_spec 0 cid), (Z.ltb_spec cid 65536); simpl; try reflexivity; lia.
Qed.

Lemma request_encoding_range_witness :
  0 <= 0xFFFF < 65536 /\
  (0x10000 < 0 \/ 65536 <= 0x10000) /\
  (exists packet,
      XcCommandRequestPacket 0xFFFF [x01] = Ok packet /\
      packet_type packet = 0xF2 /\
      length (payload packet) = (2 + length [x01])%nat /\
      drop 2 (payload packet) = [x01]) /\
  XcCommandRequestPacket 0x10000 [x01] = Raise OverflowError.
Proof.
  assert (Hin : 0 <= 0xFFFF < 65536) by lia.
  assert (Hout : 0x10000 < 0 \/ 65536 <= 0x10000) by (right; lia).
  split; [exact Hin|]. split; [exact Hout|]. split.
  - exact (proj1 (request_encoding_range 0xFFFF [x01]) Hin).
  - exact (proj2 (request_encoding_range 0x10000 [x01]) Hout).
Defined.

(** X2.  Whatever the frame payload, the identifier read from it fits in
    two bytes, and the identifier bytes and the command payload together
    are the whole frame.  Encoding the identifier again with a bytearray
    that holds the command payload therefore never overflows, and gives
    the frame back when the frame has both identifier bytes, registered
    identifier or not.  Handing the encoder the command payload as
    immutable bytes raises [TypeError] at the slice assignment. *)
Theorem decoded_header_reencodes (frame : bytes) :
  let p := XcCommandResponsePacket frame in
  0 <= command_id p < 65536 /\
  take 2 frame ++ command_payload p = frame /\
  (exists packet,
      XcCommandRequestPacket_init (command_id p) (Bytearray (command_payload p))
        = Ok packet /\
      ((2 <= length frame)%nat -> payload packet = frame)) /\
  XcCommandRequestPacket_init (command_id p) (Bytes (command_payload p))
    = Raise TypeError.
Proof.
  cbv zeta.
  assert (Hid : 0 <= command_id (XcCommandResponsePacket frame) < 65536).
  { pose proof (int_from_bytes_little_range (take 2 frame)) as Hr.
    assert (Hp : 256 ^ Z.of_nat (length (take 2 frame)) <= 256 ^ 2).
    { apply Z.pow_le_mono_r; [lia|]. rewrite length_take. lia. }
    simpl. change (256 ^ 2) with 65536 in Hp. lia. }
  split; [exact Hid|]. split; [apply take_drop|]. split.
  - cbn [XcCommandRequestPacket_init].
    eexists. split; [apply XcCommandRequestPacket_u16, Hid|].
    intros Hlen. destruct frame as [|b0 [|b1 rest]]; simpl in Hlen; try lia.
    pose proof (reencode_header b0 b1 rest) as Hre. cbv zeta in Hre.
    rewrite (XcCommandRequestPacket_u16 _ _ Hid) in Hre.
    exact (f_equal (fun res => match res with Ok packet => payload packet | Raise _ => [] end) Hre).
  - cbn [XcCommandRequestPacket_init].
    rewrite (int_to_bytes_u16 _ Hid). reflexivity.
Qed.

Lemma decoded_header_reencodes_witness :
  (2 <= length [x34; x12; x00; x41])%nat /\
  (exists packet,
      XcCommandRequestPacket_init
        (command_id (XcCommandResponsePacket [x34; x12; x00; x41]))
        (Bytearray (command_payload (XcCommandResponsePacket [x34; x12; x00; x41])))
        = Ok packet /\
      payload packet = [x34; x12; x00; x41]) /\
  XcCommandRequestPacket_init
    (command_id (XcCommandResponsePacket [x34; x12; x00; x41]))
    (Bytes (command_payload (XcCommandResponsePacket [x34; x12; x00; x41])))
    = Raise TypeError.
Proof.
  assert (Hlen : (2 <= length [x34; x12; x00; x41])%nat) by (simpl; lia).
  split; [exact Hlen|].
  destruct (decoded_header_reencodes [x34; x12; x00; x41])
    as (_ & _ & (packet & Henc & Hsame) & Hbytes).
  split; [|exact Hbytes].
  exists packet. split; [exact Henc | exact (Hsame Hlen)].
Defined.

(** X3.  [get_command_packet] returns an object exactly when the frame's
    identifier is the [command_id] of the object's class, and the object
    then holds the command payload unchanged; it raises exactly when the
    identifier is none of the three in the table, and then [TypeError]. *)
Theorem get_command_packet_characterised (p : XcCommandResponse) :
  (forall r,
      get_command_packet p = Ok r <->
      command_id p = class_command_id (response_cls r) /\
      response_payload r = command_payload p) /\
  (forall e,
      get_command_packet p = Raise e <->
      e = TypeError /\
      command_id p <> 0x0002 /\ command_id p <> 0x010A /\ command_id p <> 0x010B).
Proof.
  unfold get_command_packet. split.
  - intros [cls pl]. simpl. split.
    + destruct (_command_packets !! command_id p) as [cls'|] eqn:Hreg; [|discriminate].
      intros [= -> ->]. split; [|reflexivity].
      by apply _command_packets_registered.
    + intros [Hid ->].
      by rewrite (proj2 (_command_packets_registered _ cls) Hid).
  - intros e. split.
    + destruct (_command_packets !! command_id p) as [cls'|] eqn:Hreg; [discriminate|].
      intros [= <-]. split; [reflexivity|].
      by apply _command_packets_unregistered.
    + intros [-> Hne].
      by rewrite (proj2 (_command_packets_unregistered _) Hne).
Qed.

Lemma string_of_list_byte_length (bs : bytes) :
  String.length (string_of_list_byte bs) = length bs.
Proof.
  induction bs as [|b bs IH]; [reflexivity|].
  simpl. f_equal. exact IH.
Qed.

(** X4.  A text accessor returns a string only on an object of its own
    class and only when every byte after the status byte is ASCII; the
    string then has one character per byte and encodes back to exactly
    those bytes.  On an object of another class it raises
    [AttributeError], and on a non-ASCII byte [UnicodeDecodeError]. *)
Theorem text_accessor_lossless (c : command) (r : response) :
  (forall text,
      accessor c r = Ok text ->
      response_cls r = command_class c /\
      forallb is_ascii (drop 1 (response_payload r)) = true /\
      list_byte_of_string text = drop 1 (response_payload r) /\
      String.length text = (length (response_payload r) - 1)%nat) /\
  (response_cls r <> command_class c -> accessor c r = Raise AttributeError) /\
  (response_cls r = command_class c ->
   forallb is_ascii (drop 1 (response_payload r)) = false ->
   accessor c r = Raise UnicodeDecodeError).
Proof.
  destruct r as [cls pl]. simpl. split; [|split].
  - intros text Hacc.
    assert (Hcls : cls = command_class c)
      by (destruct c, cls; try reflexivity; discriminate Hacc).
    subst cls. split; [reflexivity|].
    assert (Hdec : decode_ascii (drop 1 pl) = Ok text) by (destruct c; exact Hacc).
    unfold decode_ascii in Hdec.
    destruct (forallb is_ascii (drop 1 pl)); [|discriminate].
    injection Hdec as <-. split; [reflexivity|]. split.
    + apply list_byte_of_string_of_list_byte.
    + rewrite string_of_list_byte_length, length_drop. reflexivity.
  - intros Hne. destruct c, cls; try reflexivity; contradiction.
  - intros -> Hbad.
    assert (Hdec : accessor c (mkResponse (command_class c) pl) = decode_ascii (drop 1 pl))
      by (destruct c; reflexivity).
    rewrite Hdec. unfold decode_ascii. by rewrite Hbad.
Qed.

Lemma text_accessor_lossless_witness :
  accessor GetAppSwName (mkResponse GetAppSwNameResponsePacket (x00 :: bytes_of "xc120"))
    = Ok "xc120" /\
  response_cls (mkResponse GetAppSwVersionResponsePacket [x00]) <> command_class GetAppSwName /\
  response_cls (mkResponse GetAppSwNameResponsePacket [x00; xff]) = command_class GetAppSwName /\
  forallb is_ascii (drop 1 (response_payload (mkResponse GetAppSwNameResponsePacket [x00; xff])))
    = false /\
  list_byte_of_string "xc120" = bytes_of "xc120" /\
  accessor GetAppSwName (mkResponse GetAppSwVersionResponsePacket [x00]) = Raise AttributeError /\
  accessor GetAppSwName (mkResponse GetAppSwNameResponsePacket [x00; xff])
    = Raise UnicodeDecodeError.
Proof.
  assert (Hok : accessor GetAppSwName
                  (mkResponse GetAppSwNameResponsePacket (x00 :: bytes_of "xc120"))
                = Ok "xc120") by reflexivity.
  assert (Hne : response_cls (mkResponse GetAppSwVersionResponsePacket [x00])
                <> command_class GetAppSwName) by discriminate.
  split; [exact Hok|]. split; [exact Hne|].
  split; [reflexivity|]. split; [reflexivity|]. split; [|split].
  - exact (proj1 (proj2 (proj2 (proj1 (text_accessor_lossless GetAppSwName _) "xc120" Hok)))).
  - exact (proj1 (proj2 (text_accessor_lossless GetAppSwName _)) Hne).
  - exact (proj2 (proj2 (text_accessor_lossless GetAppSwName
                           (mkResponse GetAppSwNameResponsePacket [x00; xff])))
             eq_refl eq_refl).
Defined.

(** ** The shared body of the command methods *)

Section Body.

Lemma call_as_body (c : command) (limit : nat) :
  call c limit =
  match c, limit with
  | GetLastError, O => raise RecursionError
  | GetLastError, S n => command_body GetLastError n
  | _, n => command_body c n
  end.
Proof. destruct c, limit; reflexivity. Qed.

Variables (c : command) (n : nat) (s : state).

Lemma body_closed :
  _ser (self s) = None ->
  command_body c n s =
  (Raise AttributeError, logged [LogDebugSending (request_packet c)] s).
Proof.
  intros Hser. unfold command_body, bind, lift_result.
  rewrite request_of_packet, (_execute_request_closed s _ (request_packet_fits c) Hser). reflexivity.
Qed.

Lemma body_timeout (port : string) :
  _ser (self s) = Some port ->
  incoming (env s) (waits (env s)) = None ->
  command_body c n s =
  (Raise (TimeoutError "_execute_request timeout"),
   logged [LogError "read timeout"] (exchanged (request_packet c) s)).
Proof.
  intros Hser Hin. unfold command_body, bind, lift_result.
  rewrite request_of_packet, (_execute_request_timeout s _ (request_packet_fits c) port Hser Hin).
  reflexivity.
Qed.

Lemma body_reply (port : string) (frame : bytes) :
  _ser (self s) = Some port ->
  incoming (env s) (waits (env s)) = Some frame ->
  command_body c n s =
  let s1 := exchanged (request_packet c) s in
  match get_command_packet (XcCommandResponsePacket frame) with
  | Raise e => (Raise e, s1)
  | Ok r =>
      match get_status r with
      | Raise e => (Raise e, s1)
      | Ok status =>
          match accessor c r with
          | Raise e => (Raise e, s1)
          | Ok text =>
              if negb (status =? 0) then
                match get_last_error n s1 with
                | (Ok error_msg, s2) =>
                    (Raise (CommandFailed (command_failed_message status error_msg)), s2)
                | (Raise e, s2) => (Raise e, s2)
                end
              else (Ok text, s1)
          end
      end
  end.
Proof.
  intros Hser Hin. unfold command_body, bind, lift_result, raise, ret.
  rewrite request_of_packet, (_execute_request_reply s _ (request_packet_fits c) port frame Hser Hin).
  cbv zeta.
  destruct (get_command_packet _) as [r|e]; [|reflexivity].
  destruct (get_status r) as [status|e]; [|reflexivity].
  destruct (accessor c r) as [text|e]; [|reflexivity].
  destruct (negb (status =? 0)); reflexivity.
Qed.

(** The four ways the body can end. *)
Lemma body_final_state :
  let s' := snd (command_body c n s) in
  s' = logged [LogDebugSending (request_packet c)] s \/
  s' = logged [LogError "read timeout"] (exchanged (request_packet c) s) \/
  s' = exchanged (request_packet c) s \/
  s' = snd (get_last_error n (exchanged (request_packet c) s)).
Proof.
  cbv zeta.
  destruct (_ser (self s)) as [port|] eqn:Hser;
    [|rewrite (body_closed Hser); auto].
  destruct (incoming (env s) (waits (env s))) as [frame|] eqn:Hin;
    [|rewrite (body_timeout port Hser Hin); auto].
  rewrite (body_reply port frame Hser Hin). cbv zeta.
  destruct (get_command_packet _) as [r|e]; [|auto].
  destruct (get_status r) as [status|e]; [|auto].
  destruct (accessor c r) as [text|e]; [|auto].
  destruct (negb (status =? 0)); [|auto].
  destruct (get_last_error n _) as [[msg|e] s2]; auto.
Qed.

End Body.

(** ** What a command leaves behind *)

Section Footprint.

Lemma count_events_app (f : event -> bool) (tr1 tr2 : list event) :
  count_events f (tr1 ++ tr2) = (count_events f tr1 + count_events f tr2)%nat.
Proof.
  induction tr1 as [|ev tr1 IH]; [reflexivity|].
  simpl. rewrite IH. lia.
Qed.

Lemma written_app (tr1 tr2 : list event) :
  written (tr1 ++ tr2) = written tr1 ++ written tr2.
Proof. apply omap_app. Qed.

Lemma writes_is_written (w : world) : writes w = written (trace w).
Proof. reflexivity. Qed.

Lemma command_event_fetch (c : command) (tmo : Z) (ev : event) :
  command_event GetLastError tmo ev -> command_event c tmo ev.
Proof. destruct ev; simpl; tauto. Qed.

Variables (c : command) (s : state).

Lemma footprint_refl : footprint c s s.
Proof.
  repeat split. exists []. repeat split; [constructor | simpl; lia].
Qed.

Lemma footprint_closed :
  footprint c s (logged [LogDebugSending (request_packet c)] s).
Proof.
  repeat split. exists [LogDebugSending (request_packet c)].
  repeat split; [|simpl; lia].
  repeat constructor.
Qed.

Lemma footprint_exchanged :
  footprint c s (exchanged (request_packet c) s).
Proof.
  repeat split.
  exists [WaitPacket 0xF2 (_timeout (self s)); SerialWrite (request_packet c);
          LogDebugSending (request_packet c)].
  repeat split; [|simpl; lia].
  repeat constructor.
Qed.

Lemma footprint_timeout :
  footprint c s (logged [LogError "read timeout"] (exchanged (request_packet c) s)).
Proof.
  repeat split.
  exists [LogError "read timeout"; WaitPacket 0xF2 (_timeout (self s));
          SerialWrite (request_packet c); LogDebugSending (request_packet c)].
  repeat split; [|simpl; lia].
  repeat constructor.
Qed.

Lemma footprint_fetch (s2 : state) :
  footprint GetLastError (exchanged (request_packet c) s) s2 ->
  footprint c s s2.
Proof.
  intros (Hself & Hsys & Hfree & Hdef & Hin & more & Htr & Hall & Hcount & Hwaits).
  split; [exact Hself|]. split; [exact Hsys|]. split; [exact Hfree|].
  split; [exact Hdef|]. split; [exact Hin|].
  exists (more ++ [WaitPacket 0xF2 (_timeout (self s)); SerialWrite (request_packet c);
                   LogDebugSending (request_packet c)]).
  split; [rewrite Htr, <- app_assoc; reflexivity|]. split; [|split].
  - apply Forall_app. split.
    + eapply Forall_impl; [exact Hall|]. intros ev. apply command_event_fetch.
    + repeat constructor.
  - rewrite count_events_app, written_app, length_app, Hcount. reflexivity.
  - rewrite Hwaits, count_events_app. simpl. lia.
Qed.

End Footprint.

Lemma get_last_error_footprint (limit : nat) (s : state) :
  footprint GetLastError s (snd (get_last_error limit s)).
Proof.
  revert s. induction limit as [|limit IH]; intros s; [apply footprint_refl|].
  change (get_last_error (S limit)) with (command_body GetLastError limit).
  destruct (body_final_state GetLastError limit s) as [-> | [-> | [-> | ->]]].
  - apply footprint_closed.
  - apply footprint_timeout.
  - apply footprint_exchanged.
  - apply footprint_fetch, IH.
Qed.

Lemma body_footprint (c : command) (n : nat) (s : state) :
  footprint c s (snd (command_body c n s)).
Proof.
  destruct (body_final_state c n s) as [-> | [-> | [-> | ->]]].
  - apply footprint_closed.
  - apply footprint_timeout.
  - apply footprint_exchanged.
  - apply footprint_fetch, get_last_error_footprint.
Qed.

Lemma call_footprint (c : command) (limit : nat) (s : state) :
  footprint c s (snd (call c limit s)).
Proof.
  rewrite call_as_body.
  destruct c; try apply body_footprint.
  destruct limit; [apply footprint_refl | apply body_footprint].
Qed.

(** X5.  On a session with a serial handle, and for a packet whose
    payload fits the two-byte length field of a frame, [_execute_request]
    makes exactly one write, of the packet it was given, and exactly one
    wait, whatever comes back, and leaves the object as it was.  It raises
    [TimeoutError] exactly when the wait delivers nothing; a delivered
    frame is decoded, and the result of decoding (an object, or the
    [TypeError] of an unregistered identifier) is passed on unchanged.
    For a payload of 65536 bytes or more framing raises [OverflowError],
    which is not caught: nothing is logged, written or awaited. *)
Theorem _execute_request_one_exchange (s : state) (packet : Packet) (port : string) :
  _ser (self s) = Some port ->
  (Z.of_nat (length (payload packet)) < 65536 ->
   exists r s',
     _execute_request packet s = (r, s') /\
     self s' = self s /\
     writes (env s') = packet :: writes (env s) /\
     waits (env s') = S (waits (env s)) /\
     (r = Raise (TimeoutError "_execute_request timeout") <->
      incoming (env s) (waits (env s)) = None) /\
     (forall frame,
         incoming (env s) (waits (env s)) = Some frame ->
         r = get_command_packet (XcCommandResponsePacket frame))) /\
  (65536 <= Z.of_nat (length (payload packet)) ->
   _execute_request packet s = (Raise OverflowError, s)).
Proof.
  intros Hser. split.
  - intros Hfits.
    destruct (incoming (env s) (waits (env s))) as [frame|] eqn:Hin.
    + eexists _, _.
      split; [exact (_execute_request_reply s packet Hfits port frame Hser Hin)|].
      repeat split; try discriminate.
      * intros Hr. unfold get_command_packet in Hr.
        destruct (_command_packets !! _); discriminate Hr.
      * intros frame' [= <-]. reflexivity.
    + eexists _, _.
      split; [exact (_execute_request_timeout s packet Hfits port Hser Hin)|].
      repeat split. intros frame [=].
  - intros Hlong.
    unfold _execute_request, try_except, bind, _send_packet, lift_result.
    rewrite (get_byte_array_overflow _ Hlong). reflexivity.
Qed.

Lemma _execute_request_one_exchange_witness :
  _ser (self (session_on late_device)) = Some "/dev/ttyACM0" /\
  Z.of_nat (length (payload (request_packet GetAppSwName))) < 65536 /\
  65536 <= Z.of_nat (length (payload (mkPacket 0xF2 (replicate (Z.to_nat 65536) x00)))) /\
  (exists r s',
      _execute_request (request_packet GetAppSwName) (session_on late_device) = (r, s') /\
      writes (env s') = [request_packet GetAppSwName] /\
      waits (env s') = 1%nat /\
      r = Raise (TimeoutError "_execute_request timeout")) /\
  _execute_request (mkPacket 0xF2 (replicate (Z.to_nat 65536) x00)) (session_on late_device)
    = (Raise OverflowError, session_on late_device).
Proof.
  assert (Hfits : Z.of_nat (length (payload (request_packet GetAppSwName))) < 65536)
    by reflexivity.
  assert (Hlong : 65536 <= Z.of_nat (length (payload (mkPacket 0xF2
                                        (replicate (Z.to_nat 65536) x00))))).
  { cbn [payload]. rewrite length_replicate.
    rewrite Z2Nat.id by (apply Z.leb_le; reflexivity). apply Z.le_refl. }
  split; [reflexivity|]. split; [exact Hfits|]. split; [exact Hlong|]. split.
  - destruct (proj1 (_execute_request_one_exchange (session_on late_device)
                       (request_packet GetAppSwName) "/dev/ttyACM0" eq_refl) Hfits)
      as (r & s' & Hrun & _ & Hw & Hwaits & Htimeout & _).
    exists r, s'. split; [exact Hrun|]. split; [exact Hw|]. split; [exact Hwaits|].
    exact (proj2 Htimeout eq_refl).
  - exact (proj2 (_execute_request_one_exchange (session_on late_device)
                    (mkPacket 0xF2 (replicate (Z.to_nat 65536) x00))
                    "/dev/ttyACM0" eq_refl) Hlong).
Defined.

(** X6.  A command method never changes the session object and never
    opens, closes, starts or stops anything: whatever the state, the budget
    and the outcome, the object's fields and the device are as before, and
    the only new events are debug lines and writes for its own request or
    for get-last-error requests, waits on the command channel with the
    session's timeout, and the "read timeout" error line. *)
Theorem commands_leave_session_untouched (c : command) (limit : nat) (s : state) :
  let s' := snd (call c limit s) in
  self s' = self s /\
  incoming (env s') = incoming (env s) /\
  exists more,
    trace (env s') = more ++ trace (env s) /\
    Forall (command_event c (_timeout (self s))) more.
Proof.
  cbv zeta.
  destruct (call_footprint c limit s)
    as (Hself & _ & _ & _ & Hin & more & Htr & Hall & _).
  split; [exact Hself|]. split; [exact Hin|].
  exists more. split; [exact Htr | exact Hall].
Qed.

(** X7.  A command method waits exactly once for each packet it writes:
    whatever the state, the budget and the outcome, the number of waits it
    added equals the number of writes it added, and the position in the
    stream of incoming frames has advanced by that number. *)
Theorem commands_wait_once_per_write (c : command) (limit : nat) (s : state) :
  let s' := snd (call c limit s) in
  exists more,
    trace (env s') = more ++ trace (env s) /\
    count_events is_wait more = length (written more) /\
    writes (env s') = written more ++ writes (env s) /\
    waits (env s') = (waits (env s) + length (written more))%nat.
Proof.
  cbv zeta.
  destruct (call_footprint c limit s)
    as (_ & _ & _ & _ & _ & more & Htr & _ & Hcount & Hwaits).
  exists more. split; [exact Htr|]. split; [exact Hcount|]. split.
  - rewrite !writes_is_written, Htr. apply written_app.
  - rewrite Hwaits, Hcount. reflexivity.
Qed.

Lemma accessor_ok (c : command) (r : response) (text : string) :
  accessor c r = Ok text ->
  response_cls r = command_class c /\
  decode_ascii (drop 1 (response_payload r)) = Ok text.
Proof.
  destruct r as [cls pl]. simpl.
  destruct c, cls; simpl; intros H; try discriminate H; split; auto.
Qed.

Lemma body_returns_own_reply (c : command) (n : nat) (s s' : state) (t : string) :
  command_body c n s = (Ok t, s') ->
  exists port text,
    _ser (self s) = Some port /\
    incoming (env s) (waits (env s)) = Some (reply_frame c x00 text) /\
    forallb is_ascii text = true /\
    t = string_of_list_byte text /\
    s' = exchanged (request_packet c) s.
Proof.
  intros Hrun.
  destruct (_ser (self s)) as [port|] eqn:Hser;
    [|rewrite (body_closed c n s Hser) in Hrun; discriminate].
  destruct (incoming (env s) (waits (env s))) as [frame|] eqn:Hin;
    [|rewrite (body_timeout c n s port Hser Hin) in Hrun; discriminate].
  rewrite (body_reply c n s port frame Hser Hin) in Hrun. cbv zeta in Hrun.
  unfold get_command_packet in Hrun.
  destruct (_command_packets !! _) as [cls|] eqn:Hreg; [|discriminate].
  apply _command_packets_registered in Hreg.
  destruct (get_status _) as [status|e] eqn:Hst; [|discriminate].
  destruct (accessor c _) as [text|e] eqn:Hacc; [|discriminate].
  destruct (Z.eqb_spec status 0) as [->|_]; simpl in Hrun;
    [|destruct (get_last_error n _) as [[msg|e] s2]; discriminate].
  injection Hrun as <- <-.
  apply accessor_ok in Hacc as [Hcls Hdec]. simpl in Hcls, Hdec. subst cls.
  unfold get_status, getitem0 in Hst. simpl in Hst, Hreg.
  destruct (drop 2 frame) as [|b rest] eqn:Hdrop; [discriminate|].
  simpl in Hst, Hdec. injection Hst as Hb. apply byte_to_int_zero in Hb. subst b.
  unfold decode_ascii in Hdec. rewrite drop_0 in Hdec.
  destruct (forallb is_ascii rest) eqn:Hascii; [|discriminate].
  injection Hdec as <-.
  exists port, rest. split; [reflexivity|]. split; [|auto].
  f_equal. rewrite <- (take_drop 2 frame), Hdrop. unfold reply_frame. f_equal.
  assert (Hlen : length (take 2 frame) = 2%nat).
  { rewrite length_take.
    assert (length (drop 2 frame) = S (length rest)) as Hl by (rewrite Hdrop; reflexivity).
    rewrite length_drop in Hl. lia. }
  pose proof (little_digits_from_bytes (take 2 frame)) as Hdig.
  rewrite Hlen, Hreg in Hdig. symmetry. exact Hdig.
Qed.

(** X8.  A command method returns a string only when the session has its
    serial handle and the frame delivered to its first wait is a reply to
    this very command with status 0 and ASCII text: the string is that
    text, and nothing but the one request and the one wait has happened. *)
Theorem call_returns_only_own_successful_reply
    (c : command) (limit : nat) (s s' : state) (t : string) :
  call c limit s = (Ok t, s') ->
  exists port text,
    _ser (self s) = Some port /\
    incoming (env s) (waits (env s)) = Some (reply_frame c x00 text) /\
    forallb is_ascii text = true /\
    t = string_of_list_byte text /\
    s' = exchanged (request_packet c) s.
Proof.
  rewrite call_as_body.
  destruct c; try apply body_returns_own_reply.
  destruct limit; [discriminate | apply body_returns_own_reply].
Qed.

Lemma call_returns_only_own_successful_reply_witness :
  let s0 := session_on (queue_of [reply_frame GetAppSwName x00 (bytes_of "xc120")]) in
  get_app_sw_name 0 s0 = (Ok "xc120", exchanged (request_packet GetAppSwName) s0) /\
  exists port text,
    _ser (self s0) = Some port /\
    incoming (env s0) (waits (env s0)) = Some (reply_frame GetAppSwName x00 text) /\
    forallb is_ascii text = true /\
    "xc120" = string_of_list_byte text.
Proof.
  cbv zeta.
  assert (Hrun : call GetAppSwName 0
                   (session_on (queue_of [reply_frame GetAppSwName x00 (bytes_of "xc120")]))
                 = (Ok "xc120",
                    exchanged (request_packet GetAppSwName)
                      (session_on (queue_of [reply_frame GetAppSwName x00 (bytes_of "xc120")]))))
    by reflexivity.
  split; [exact Hrun|].
  destruct (call_returns_only_own_successful_reply _ _ _ _ _ Hrun)
    as (port & text & Hser & Hin & Hascii & Htext & _).
  exists port, text. auto.
Defined.

(** X9.  A reply to the command that was sent but without a status byte
    makes the method raise [IndexError], and one whose text has a byte
    that is not ASCII makes it raise [UnicodeDecodeError], whatever the
    status byte: the text is decoded before the status is looked at.  In
    both cases nothing more is sent, in particular no get-last-error. *)
Theorem malformed_own_reply_fails_without_error_fetch
    (c : command) (limit : nat) (s : state) (port : string) :
  _ser (self s) = Some port ->
  (incoming (env s) (waits (env s)) = Some (payload (request_packet c)) ->
   call c (S limit) s = (Raise IndexError, exchanged (request_packet c) s)) /\
  (forall st text,
      incoming (env s) (waits (env s)) = Some (reply_frame c st text) ->
      forallb is_ascii text = false ->
      call c (S limit) s = (Raise UnicodeDecodeError, exchanged (request_packet c) s)).
Proof.
  intros Hser. split.
  - intros Hin. rewrite (call_reply c limit s port _ Hser Hin).
    destruct c; reflexivity.
  - intros st text Hin Hbad.
    rewrite (call_reply c limit s port _ Hser Hin). cbv zeta.
    destruct (decode_own_reply c st text) as (-> & -> & ->).
    unfold decode_ascii. rewrite Hbad. reflexivity.
Qed.

Lemma malformed_own_reply_fails_without_error_fetch_witness :
  let s0 := session_on (queue_of [payload (request_packet GetAppSwVersion)]) in
  let s1 := session_on (queue_of [reply_frame GetLastError x05 [x41; x80]]) in
  _ser (self s0) = Some "/dev/ttyACM0" /\
  incoming (env s0) (waits (env s0)) = Some (payload (request_packet GetAppSwVersion)) /\
  incoming (env s1) (waits (env s1)) = Some (reply_frame GetLastError x05 [x41; x80]) /\
  forallb is_ascii [x41; x80] = false /\
  get_app_sw_version 1 s0 = (Raise IndexError, exchanged (request_packet GetAppSwVersion) s0) /\
  get_last_error 1 s1 = (Raise UnicodeDecodeError, exchanged (request_packet GetLastError) s1).
Proof.
  cbv zeta. do 4 (split; [reflexivity|]). split.
  - exact (proj1 (malformed_own_reply_fails_without_error_fetch GetAppSwVersion 0
                    (session_on (queue_of [payload (request_packet GetAppSwVersion)]))
                    "/dev/ttyACM0" eq_refl) eq_refl).
  - exact (proj2 (malformed_own_reply_fails_without_error_fetch GetLastError 0
                    (session_on (queue_of [reply_frame GetLastError x05 [x41; x80]]))
                    "/dev/ttyACM0" eq_refl) x05 [x41; x80] eq_refl eq_refl).
Defined.

(** ** Reboot, stop, close and the context manager *)

(** X10.  On a session with its serial handle [dfu_reboot] writes the one
    request [FF FF] and returns without waiting, so the stream of incoming
    frames stays where it was: the command called next reads the frame
    that was due, and if that frame is an answer to the reboot request,
    whose identifier the table does not have, the command ends in
    [TypeError]. *)
Theorem dfu_reboot_writes_without_waiting (s : state) (port : string) :
  _ser (self s) = Some port ->
  let packet := mkPacket 0xF2 [xff; xff] in
  let s1 := logged [SerialWrite packet; LogDebugSending packet] s in
  dfu_reboot s = (Ok tt, s1) /\
  waits (env s1) = waits (env s) /\
  (forall c limit text,
      incoming (env s) (waits (env s)) = Some (reply_frame c x00 text) ->
      forallb is_ascii text = true ->
      fst (call c (S limit) s1) = Ok (string_of_list_byte text)) /\
  (forall c limit rest,
      incoming (env s) (waits (env s)) = Some (xff :: xff :: rest) ->
      fst (call c (S limit) s1) = Raise TypeError).
Proof.
  intros Hser. cbv zeta. split; [|split; [reflexivity|split]].
  - unfold dfu_reboot, bind, lift_result.
    change DfuRebootRequestPacket with (Ok (mkPacket 0xF2 [xff; xff])).
    cbv beta iota.
    exact (_send_packet_open s (mkPacket 0xF2 [xff; xff]) ltac:(simpl; lia) port Hser).
  - intros c limit text Hin Hascii.
    rewrite (call_success c limit _ port text); [reflexivity | exact Hser | exact Hin | exact Hascii].
  - intros c limit rest Hin.
    rewrite (call_reply c limit _ port (xff :: xff :: rest)); [reflexivity | exact Hser | exact Hin].
Qed.

Lemma dfu_reboot_writes_without_waiting_witness :
  let s0 := session_on (queue_of [[xff; xff; x00]]) in
  _ser (self s0) = Some "/dev/ttyACM0" /\
  incoming (env s0) (waits (env s0)) = Some [xff; xff; x00] /\
  fst (dfu_reboot s0) = Ok tt /\
  fst (get_app_sw_version 1 (snd (dfu_reboot s0))) = Raise TypeError.
Proof.
  cbv zeta. split; [reflexivity|]. split; [reflexivity|].
  destruct (dfu_reboot_writes_without_waiting
              (session_on (queue_of [[xff; xff; x00]])) "/dev/ttyACM0" eq_refl)
    as (Hrun & _ & _ & Hstale).
  rewrite Hrun. split; [reflexivity|].
  exact (Hstale GetAppSwVersion 0%nat [x00] eq_refl).
Defined.

(** X11.  [stop] never raises and never touches the serial handle; it
    stops the reader only if the session believes it started, and leaves
    the session believing it stopped.  So [stop] twice is [stop] once, and
    [close] after [stop] is [close]. *)
Theorem stop_is_idempotent (s : state) :
  (exists s',
      stop s = (Ok tt, s') /\
      _ser (self s') = _ser (self s) /\
      _reader_started (self s') = false /\
      trace (env s') =
        (if _reader_started (self s) then [ReaderStop] else []) ++ trace (env s)) /\
  (stop;; stop) s = stop s /\
  (stop;; close) s = close s.
Proof.
  destruct s as [[ser tmo started] w].
  split; [|split].
  - destruct started; eexists; repeat split.
  - destruct started; reflexivity.
  - destruct started, ser; reflexivity.
Qed.

Lemma lifecycle_step (op : lifecycle) (s : state) :
  let s1 := snd (lifecycle_method op s) in
  (count_events is_reader_stop (trace (env s1)) + reader_to_stop s1
   = count_events is_reader_stop (trace (env s)) + reader_to_stop s)%nat /\
  (count_events is_serial_close (trace (env s1)) + port_to_close s1
   = count_events is_serial_close (trace (env s)) + port_to_close s)%nat /\
  (_reader_started (self s) = false -> _reader_started (self s1) = false) /\
  (_ser (self s) = None -> _ser (self s1) = None) /\
  (op <> CallStop -> _reader_started (self s1) = false /\ _ser (self s1) = None).
Proof.
  destruct s as [[ser tmo started] w].
  destruct op, started, ser; cbn; repeat split; try lia; try congruence.
Qed.

(** X12.  Whatever sequence of [stop], [close] and [__exit__] a caller
    runs, going on after exceptions, the reader is stopped exactly once if
    it was started and not stopped again, and the port is closed at most
    once: each stop event uses up the started flag and each close event
    uses up the handle.  If the sequence has a [close] or an [__exit__],
    the session ends with no handle and the reader stopped. *)
Theorem lifecycle_stops_and_closes_once (ops : list lifecycle) (s : state) :
  let s' := run_lifecycle ops s in
  (count_events is_reader_stop (trace (env s')) + reader_to_stop s'
   = count_events is_reader_stop (trace (env s)) + reader_to_stop s)%nat /\
  (count_events is_serial_close (trace (env s')) + port_to_close s'
   = count_events is_serial_close (trace (env s)) + port_to_close s)%nat /\
  (In CallClose ops \/ In CallExit ops ->
   _reader_started (self s') = false /\ _ser (self s') = None).
Proof.
  cbv zeta.
  assert (Hkeep : forall ops s,
             _reader_started (self s) = false -> _ser (self s) = None ->
             _reader_started (self (run_lifecycle ops s)) = false /\
             _ser (self (run_lifecycle ops s)) = None).
  { clear. induction ops as [|op ops IH]; intros s Hr Hs; [auto|].
    destruct (lifecycle_step op s) as (_ & _ & Hr' & Hs' & _).
    simpl. apply IH; auto. }
  revert s. induction ops as [|op ops IH]; intros s.
  - simpl. split; [reflexivity|]. split; [reflexivity|]. intros [[]|[]].
  - destruct (lifecycle_step op s) as (Hstop & Hclose & _ & _ & Hdone).
    destruct (IH (snd (lifecycle_method op s))) as (IHstop & IHclose & IHdone).
    simpl. split; [lia|]. split; [lia|].
    intros Hin.
    destruct op.
    + apply IHdone. destruct Hin as [[Heq|Hin]|[Heq|Hin]]; try discriminate; auto.
    + destruct Hdone as [Hr Hs]; [discriminate|]. apply Hkeep; assumption.
    + destruct Hdone as [Hr Hs]; [discriminate|]. apply Hkeep; assumption.
Qed.

Lemma lifecycle_stops_and_closes_once_witness :
  let s' := run_lifecycle [CallStop; CallClose; CallExit; CallStop]
                          (session_on (fun _ => None)) in
  (In CallClose [CallStop; CallClose; CallExit; CallStop]
   \/ In CallExit [CallStop; CallClose; CallExit; CallStop]) /\
  _reader_started (self s') = false /\
  _ser (self s') = None /\
  count_events is_reader_stop (trace (env s')) = 1%nat /\
  count_events is_serial_close (trace (env s')) = 1%nat.
Proof.
  cbv zeta.
  assert (Hin : In CallClose [CallStop; CallClose; CallExit; CallStop]
                \/ In CallExit [CallStop; CallClose; CallExit; CallStop])
    by (left; right; left; reflexivity).
  split; [exact Hin|].
  destruct (lifecycle_stops_and_closes_once [CallStop; CallClose; CallExit; CallStop]
              (session_on (fun _ => None))) as (_ & _ & Hdone).
  destruct (Hdone Hin) as [Hr Hs].
  split; [exact Hr|]. split; [exact Hs|]. split; reflexivity.
Defined.

(** X13.  [__enter__] hands back the object and does nothing else.  On a
    session that had its serial handle, [__exit__] after a command method,
    whatever the command's outcome, raises nothing: it stops the reader if
    it was started, closes the port, and leaves the session without a
    handle. *)
Theorem exit_after_command_releases
    (c : command) (limit : nat) (s : state) (port : string) :
  _ser (self s) = Some port ->
  let s1 := snd (call c limit s) in
  __enter__ s = (Ok (self s), s) /\
  exists s2,
    __exit__ s1 = (Ok tt, s2) /\
    _ser (self s2) = None /\
    _reader_started (self s2) = false /\
    trace (env s2) =
      SerialClose
        :: (if _reader_started (self s) then [ReaderStop] else []) ++ trace (env s1).
Proof.
  intros Hser. cbv zeta. split; [reflexivity|].
  destruct (call_footprint c limit s) as (Hself & _).
  destruct (snd (call c limit s)) as [this1 w1]. simpl in Hself. subst this1.
  destruct s as [[ser tmo started] w]. simpl in Hser. subst ser. simpl.
  destruct started; eexists; repeat split.
Qed.

Lemma exit_after_command_releases_witness :
  _ser (self (session_on late_device)) = Some "/dev/ttyACM0" /\
  fst (get_app_sw_name 1 (session_on late_device))
    = Raise (TimeoutError "_execute_request timeout") /\
  exists s2,
    __exit__ (snd (get_app_sw_name 1 (session_on late_device))) = (Ok tt, s2) /\
    _ser (self s2) = None.
Proof.
  split; [reflexivity|]. split; [reflexivity|].
  destruct (exit_after_command_releases GetAppSwName 1 (session_on late_device)
              "/dev/ttyACM0" eq_refl) as (_ & s2 & Hexit & Hnone & _).
  exists s2. split; [exact Hexit | exact Hnone].
Defined.

(** X14.  On Linux the constructor first opens the port and only then
    starts the reader: if the port cannot be opened nothing else happens,
    and otherwise the object holds the handle, has the reader's default
    read timeout and believes the reader started.  The first command on
    the new session waits on the command channel with that timeout. *)
Theorem init_then_first_command (port : string) (w : world) :
  platform_system w = "Linux" ->
  (port_free w port = false -> __init__ port w = (Raise SerialException, w)) /\
  (port_free w port = true ->
   exists w',
     __init__ port w =
       (Ok (mkXCCommunication (Some port) (DEFAULT_READ_TIMEOUT w) true), w') /\
     trace w' = ReaderStart :: SerialOpen port :: trace w /\
     forall c limit text,
       incoming w (waits w) = Some (reply_frame c x00 text) ->
       forallb is_ascii text = true ->
       exists s',
         call c (S limit)
              (mkState (mkXCCommunication (Some port) (DEFAULT_READ_TIMEOUT w) true) w')
           = (Ok (string_of_list_byte text), s') /\
         trace (env s') =
           [WaitPacket 0xF2 (DEFAULT_READ_TIMEOUT w); SerialWrite (request_packet c);
            LogDebugSending (request_packet c); ReaderStart; SerialOpen port]
           ++ trace w).
Proof.
  intros Hsys. destruct w as [sys free dflt inc wts tr]. simpl in *. subst sys.
  split.
  - intros Hbusy. unfold __init__, serial_Serial, bind. simpl.
    rewrite Hbusy. reflexivity.
  - intros Hfree.
    eexists. split.
    { unfold __init__, serial_Serial, bind, emit_w, ret. simpl.
      rewrite Hfree. reflexivity. }
    split; [reflexivity|].
    intros c limit text Hin Hascii.
    eexists. split.
    + apply (call_success c limit _ port text); [reflexivity | exact Hin | exact Hascii].
    + reflexivity.
Qed.

Lemma init_then_first_command_witness :
  let w := linux (queue_of [reply_frame GetAppSwVersion x00 (bytes_of "2.1.0")]) in
  platform_system w = "Linux" /\
  port_free w "/dev/ttyACM0" = true /\
  exists w',
    __init__ "/dev/ttyACM0" w = (Ok (mkXCCommunication (Some "/dev/ttyACM0") 2 true), w') /\
    fst (get_app_sw_version 1 (mkState (mkXCCommunication (Some "/dev/ttyACM0") 2 true) w'))
      = Ok "2.1.0".
Proof.
  cbv zeta. split; [reflexivity|]. split; [reflexivity|].
  destruct (proj2 (init_then_first_command "/dev/ttyACM0"
                     (linux (queue_of [reply_frame GetAppSwVersion x00 (bytes_of "2.1.0")]))
                     eq_refl) eq_refl)
    as (w' & Hinit & _ & Hfirst).
  exists w'. split; [exact Hinit|].
  destruct (Hfirst GetAppSwVersion 0%nat (bytes_of "2.1.0") eq_refl eq_refl)
    as (s' & Hrun & _).
  exact (f_equal fst Hrun).
Defined.

(** ** What a failing error fetch reports *)

(** X15.  When the device answers get-last-error requests with a run of
    nonzero statuses (with ASCII text) and then with status 0 and a
    message, and the recursion budget is large enough, [get_last_error]
    sends one request per answer and raises [CommandFailed] built from the
    status of the last failing answer and the message: the statuses of the
    earlier answers are not reported. *)
Theorem get_last_error_reports_innermost_failure
    (earlier : list (byte * bytes)) (st : byte) (text msg : bytes)
    (limit : nat) (s : state) (port : string) :
  _ser (self s) = Some port ->
  Forall (fun f => byte_to_int (fst f) <> 0 /\ forallb is_ascii (snd f) = true)
         (earlier ++ [(st, text)]) ->
  (forall i f,
      (earlier ++ [(st, text)]) !! i = Some f ->
      incoming (env s) (waits (env s) + i) = Some (reply_frame GetLastError (fst f) (snd f))) ->
  incoming (env s) (waits (env s) + S (length earlier))
    = Some (reply_frame GetLastError x00 msg) ->
  forallb is_ascii msg = true ->
  (S (length earlier) < limit)%nat ->
  exists s',
    get_last_error limit s =
      (Raise (CommandFailed
                (command_failed_message (byte_to_int st) (string_of_list_byte msg))),
       s') /\
    writes (env s') =
      replicate (S (S (length earlier))) (request_packet GetLastError) ++ writes (env s).
Proof.
  revert limit s.
  induction earlier as [|f earlier IH]; intros limit s Hser Hall Hfail Hgood Hmsg Hlimit.
  - destruct limit as [|[|l]]; simpl in Hlimit; try lia.
    apply Forall_inv in Hall as [Hst Htext]. simpl in Hst, Htext.
    pose proof (Hfail 0%nat (st, text) eq_refl) as Hin.
    rewrite Nat.add_0_r in Hin. simpl in Hin.
    rewrite get_last_error_is_call.
    rewrite (call_failure GetLastError (S l) s port st text Hser Hin Htext Hst).
    cbn [nested_limit]. rewrite get_last_error_is_call.
    rewrite (call_success GetLastError l (exchanged (request_packet GetLastError) s)
               port msg); [|exact Hser| |exact Hmsg].
    + eexists. split; reflexivity.
    + simpl. rewrite <- Hgood. f_equal. simpl. lia.
  - destruct limit as [|l]; [lia|].
    pose proof (Forall_inv Hall) as [Hst Htext].
    pose proof (Hfail 0%nat f eq_refl) as Hin. rewrite Nat.add_0_r in Hin.
    rewrite get_last_error_is_call.
    rewrite (call_failure GetLastError l s port (fst f) (snd f) Hser Hin Htext Hst).
    cbn [nested_limit].
    destruct (IH l (exchanged (request_packet GetLastError) s)) as (s' & Hrun & Hw).
    + exact Hser.
    + exact (Forall_inv_tail Hall).
    + intros i g Hg. simpl. rewrite <- (Hfail (S i) g Hg). f_equal. lia.
    + simpl. rewrite <- Hgood. f_equal. simpl. lia.
    + exact Hmsg.
    + simpl in Hlimit. lia.
    + rewrite Hrun. exists s'. split; [reflexivity|].
      rewrite Hw, writes_exchanged. simpl length.
      apply replicate_snoc_cons.
Qed.

Lemma get_last_error_reports_innermost_failure_witness :
  let s0 := session_on (queue_of [reply_frame GetLastError x07 (bytes_of "a");
                                  reply_frame GetLastError x09 (bytes_of "b");
                                  reply_frame GetLastError x00 (bytes_of "flash busy")]) in
  _ser (self s0) = Some "/dev/ttyACM0" /\
  (S (length [(x07, bytes_of "a")]) < 3)%nat /\
  exists s',
    get_last_error 3 s0 = (Raise (CommandFailed "Command failed with code 9 [flash busy]"), s') /\
    writes (env s') = replicate 3 (request_packet GetLastError).
Proof.
  cbv zeta.
  assert (Hlimit : (S (length [(x07, bytes_of "a")]) < 3)%nat) by (simpl; lia).
  split; [reflexivity|]. split; [exact Hlimit|].
  refine (get_last_error_reports_innermost_failure
            [(x07, bytes_of "a")] x09 (bytes_of "b") (bytes_of "flash busy") 3
            (session_on (queue_of [reply_frame GetLastError x07 (bytes_of "a");
                                   reply_frame GetLastError x09 (bytes_of "b");
                                   reply_frame GetLastError x00 (bytes_of "flash busy")]))
            "/dev/ttyACM0" eq_refl _ _ eq_refl eq_refl Hlimit).
  - repeat constructor; discriminate.
  - intros [|[|i]] f Hf; simpl in Hf; try discriminate Hf;
      injection Hf as <-; reflexivity.
Defined.

Lemma accessor_raises (c : command) (r : response) (e : exn) :
  accessor c r = Raise e -> e = AttributeError \/ e = UnicodeDecodeError.
Proof.
  destruct r as [cls pl].
  destruct c, cls;
    cbv [accessor get_response_data get_version get_name
         response_cls response_payload decode_ascii];
    try destruct (forallb is_ascii (drop 1 pl));
    intros H; try discriminate H; injection H as <-; auto.
Qed.

Lemma body_command_failed (n : nat) :
  forall (c : command) (s s' : state) (m : string),
    command_body c n s = (Raise (CommandFailed m), s') ->
    exists k frame st text,
      (waits (env s) <= k)%nat /\
      waits (env s') = S (S k) /\
      incoming (env s) k = Some frame /\
      frame !! 2%nat = Some st /\
      byte_to_int st <> 0 /\
      incoming (env s) (S k) = Some (reply_frame GetLastError x00 text) /\
      forallb is_ascii text = true /\
      m = command_failed_message (byte_to_int st) (string_of_list_byte text).
Proof.
  induction n as [|n IH]; intros c s s' m Hrun.
  all: destruct (_ser (self s)) as [port|] eqn:Hser;
    [|rewrite (body_closed c _ s Hser) in Hrun; discriminate].
  all: destruct (incoming (env s) (waits (env s))) as [frame|] eqn:Hin;
    [|rewrite (body_timeout c _ s port Hser Hin) in Hrun; discriminate].
  all: rewrite (body_reply c _ s port frame Hser Hin) in Hrun; cbv zeta in Hrun.
  all: unfold get_command_packet in Hrun.
  all: destruct (_command_packets !! _) as [cls|]; [|discriminate].
  all: unfold get_status, getitem0 in Hrun; cbn [response_payload command_payload
                                                   XcCommandResponsePacket] in Hrun.
  all: destruct (drop 2 frame !! 0%nat) as [b|] eqn:Hb; [|discriminate].
  all: rewrite lookup_drop in Hb; simpl in Hb.
  all: destruct (accessor c _) as [text|e] eqn:Hacc;
    [|injection Hrun as -> _; apply accessor_raises in Hacc as [?|?]; discriminate].
  all: destruct (Z.eqb_spec (byte_to_int b) 0) as [Hz|Hnz]; cbn [negb] in Hrun;
    [discriminate|].
  - simpl in Hrun. discriminate.
  - destruct (get_last_error (S n) _) as [[msg|e] s2] eqn:Hfetch.
    + injection Hrun as <- <-.
      change (get_last_error (S n)) with (command_body GetLastError n) in Hfetch.
      apply body_returns_own_reply in Hfetch
        as (port' & text' & _ & Hnext & Hascii & -> & ->).
      exists (waits (env s)), frame, b, text'.
      split; [lia|]. split; [reflexivity|]. split; [exact Hin|]. split; [exact Hb|].
      split; [exact Hnz|]. split; [exact Hnext|]. split; [exact Hascii | reflexivity].
    + injection Hrun as -> <-.
      change (get_last_error (S n)) with (command_body GetLastError n) in Hfetch.
      apply IH in Hfetch
        as (k & frame' & st & text' & Hk & Hw & Hf & Hst & Hnz' & Hnext & Hascii & ->).
      exists k, frame', st, text'. simpl in Hk, Hf, Hnext.
      split; [lia|]. split; [exact Hw|]. split; [exact Hf|]. split; [exact Hst|].
      split; [exact Hnz'|]. split; [exact Hnext|]. split; [exact Hascii | reflexivity].
Qed.

(** X16.  A command method raises [CommandFailed] only from what the
    device sent: the last two frames it consumed are a frame whose status
    byte is nonzero, and right after it a get-last-error reply with status
    0 and ASCII text; the message of the exception is built from exactly
    that status and that text. *)
Theorem command_failed_quotes_the_device
    (c : command) (limit : nat) (s s' : state) (m : string) :
  call c limit s = (Raise (CommandFailed m), s') ->
  exists k frame st text,
    (waits (env s) <= k)%nat /\
    waits (env s') = S (S k) /\
    incoming (env s) k = Some frame /\
    frame !! 2%nat = Some st /\
    byte_to_int st <> 0 /\
    incoming (env s) (S k) = Some (reply_frame GetLastError x00 text) /\
    forallb is_ascii text = true /\
    m = command_failed_message (byte_to_int st) (string_of_list_byte text).
Proof.
  rewrite call_as_body.
  destruct c; try apply body_command_failed.
  destruct limit; [discriminate | apply body_command_failed].
Qed.

Lemma command_failed_quotes_the_device_witness :
  let s0 := session_on (queue_of [reply_frame GetAppSwName x03 [];
                                  reply_frame GetLastError x00 (bytes_of "bad")]) in
  fst (get_app_sw_name 1 s0) = Raise (CommandFailed "Command failed with code 3 [bad]") /\
  exists k frame st text,
    incoming (env s0) k = Some frame /\
    frame !! 2%nat = Some st /\
    incoming (env s0) (S k) = Some (reply_frame GetLastError x00 text) /\
    "Command failed with code 3 [bad]"
      = command_failed_message (byte_to_int st) (string_of_list_byte text).
Proof.
  cbv zeta. split; [reflexivity|].
  destruct (command_failed_quotes_the_device GetAppSwName 1
              (session_on (queue_of [reply_frame GetAppSwName x03 [];
                                     reply_frame GetLastError x00 (bytes_of "bad")]))
              (snd (get_app_sw_name 1
                      (session_on (queue_of [reply_frame GetAppSwName x03 [];
                                             reply_frame GetLastError x00 (bytes_of "bad")]))))
              "Command failed with code 3 [bad]" eq_refl)
    as (k & frame & st & text & _ & _ & Hf & Hst & _ & Hnext & _ & Hm).
  exists k, frame, st, text. auto.
Defined.

Lemma body_timeout_only (n : nat) :
  forall (c : command) (s s' : state) (m : string),
    command_body c n s = (Raise (TimeoutError m), s') ->
    m = "_execute_request timeout" /\
    exists k,
      (waits (env s) <= k)%nat /\
      waits (env s') = S k /\
      incoming (env s) k = None.
Proof.
  induction n as [|n IH]; intros c s s' m Hrun.
  all: destruct (_ser (self s)) as [port|] eqn:Hser;
    [|rewrite (body_closed c _ s Hser) in Hrun; discriminate].
  all: destruct (incoming (env s) (waits (env s))) as [frame|] eqn:Hin;
    [|rewrite (body_timeout c _ s port Hser Hin) in Hrun;
      injection Hrun as <- <-; split; [reflexivity|];
      exists (waits (env s)); split; [lia|]; split; [reflexivity | exact Hin]].
  all: rewrite (body_reply c _ s port frame Hser Hin) in Hrun; cbv zeta in Hrun.
  all: unfold get_command_packet in Hrun.
  all: destruct (_command_packets !! _) as [cls|]; [|discriminate].
  all: unfold get_status, getitem0 in Hrun; cbn [response_payload command_payload
                                                   XcCommandResponsePacket] in Hrun.
  all: destruct (drop 2 frame !! 0%nat) as [b|]; [|discriminate].
  all: destruct (accessor c _) as [text|e] eqn:Hacc;
    [|injection Hrun as -> _; apply accessor_raises in Hacc as [?|?]; discriminate].
  all: destruct (Z.eqb_spec (byte_to_int b) 0) as [Hz|Hnz]; cbn [negb] in Hrun;
    [discriminate|].
  - simpl in Hrun. discriminate.
  - destruct (get_last_error (S n) _) as [[msg|e] s2] eqn:Hfetch; [discriminate|].
    injection Hrun as -> <-.
    change (get_last_error (S n)) with (command_body GetLastError n) in Hfetch.
    apply IH in Hfetch as (-> & k & Hk & Hw & Hnone).
    split; [reflexivity|]. exists k. simpl in Hk, Hnone.
    split; [lia|]. split; [exact Hw | exact Hnone].
Qed.

(** X17.  A command method raises [TimeoutError] only when a wait really
    delivered nothing: the last wait it made, its own or that of a nested
    get-last-error, found no frame, and the message is the fixed text of
    [_execute_request]. *)
Theorem timeout_error_means_silence
    (c : command) (limit : nat) (s s' : state) (m : string) :
  call c limit s = (Raise (TimeoutError m), s') ->
  m = "_execute_request timeout" /\
  exists k,
    (waits (env s) <= k)%nat /\
    waits (env s') = S k /\
    incoming (env s) k = None.
Proof.
  rewrite call_as_body.
  destruct c; try apply body_timeout_only.
  destruct limit; [discriminate | apply body_timeout_only].
Qed.

Lemma timeout_error_means_silence_witness :
  let s0 := session_on (queue_of [reply_frame GetAppSwName x03 []]) in
  fst (get_app_sw_name 1 s0) = Raise (TimeoutError "_execute_request timeout") /\
  exists k,
    waits (env (snd (get_app_sw_name 1 s0))) = S k /\
    incoming (env s0) k = None.
Proof.
  cbv zeta. split; [reflexivity|].
  destruct (timeout_error_means_silence GetAppSwName 1
              (session_on (queue_of [reply_frame GetAppSwName x03 []]))
              (snd (get_app_sw_name 1
                      (session_on (queue_of [reply_frame GetAppSwName x03 []]))))
              "_execute_request timeout" eq_refl)
    as (_ & k & _ & Hw & Hnone).
  exists k. split; [exact Hw | exact Hnone].
Defined.
